(** * MeshGuard Python SDK: decision protocol and enforcement gate

    A shallow embedding of [meshguard/exceptions.py], [meshguard/client.py]
    and of [GovernedTool] from [meshguard/langchain.py], with the properties
    of the decision protocol proved over it.

    Conventions of the embedding.
    - A Python value decoded from a response body is a [value]; the fields of
      [PolicyDecision] and [PolicyDeniedError] that are filled from a body
      hold such values (the [Optional[str]] annotations are not enforced at
      run time).  Non-integer JSON numbers are left out.
    - Arguments supplied by the caller keep their declared types:
      [str] is [string], [Optional[str]] is [option string].
    - Dictionaries built by the client itself (request headers) are [gmap]s;
      a decoded JSON object is an association list, one binding per key, in
      document order.
    - A method that may raise, or that talks to the gateway, lives in the
      monad [M]: a state monad over [World] (the requests sent so far and the
      caller's own state) whose results are [Ok v] or [Raise e]. *)

From stdpp Require Import base strings gmap pretty.

Open Scope string_scope.

Set Warnings "-register-all".

(** ** Python values and the built-ins the client uses *)

Inductive value : Type :=
| VNone
| VBool (b : bool)
| VInt (n : Z)
| VStr (s : string)
| VList (l : list value)
| VDict (d : list (string * value)).

(** [bool(v)]: the truth value tested by [if v], [not v] and [v or w]. *)
Definition truthy (v : value) : bool :=
  match v with
  | VNone => false
  | VBool b => b
  | VInt n => negb (n =? 0)%Z
  | VStr s => negb (String.eqb s "")
  | VList l => match l with [] => false | _ => true end
  | VDict d => match d with [] => false | _ => true end
  end.

(** [v or w]. *)
Definition py_or (v w : value) : value := if truthy v then v else w.

(** An [Optional[str]] argument as a Python value. *)
Definition of_opt (o : option string) : value :=
  match o with
  | None => VNone
  | Some s => VStr s
  end.

(** Truth value of an [Optional[str]] argument: neither [None] nor [""]. *)
Definition truthy_opt (o : option string) : bool := truthy (of_opt o).

Definition opt_or (a b : option string) : option string :=
  if truthy_opt a then a else b.

(** Lookup in a decoded JSON object: the first binding of the key. *)
Fixpoint assoc (k : string) (d : list (string * value)) : option value :=
  match d with
  | [] => None
  | (k', v) :: d' => if String.eqb k k' then Some v else assoc k d'
  end.

(** The character [/]. *)
Definition slash : Ascii.ascii := Ascii.ascii_of_nat 47.

(** [s.rstrip("/")] and [s.lstrip("/")]. *)
Fixpoint rstrip_slash (s : string) : string :=
  match s with
  | EmptyString => EmptyString
  | String c s' =>
      let t := rstrip_slash s' in
      if String.eqb t "" && Ascii.eqb c slash then "" else String c t
  end.

Fixpoint lstrip_slash (s : string) : string :=
  match s with
  | EmptyString => EmptyString
  | String c s' => if Ascii.eqb c slash then lstrip_slash s' else s
  end.

(** [sub in s] on strings. *)
Definition contains (sub s : string) : Prop :=
  ∃ pre post, s = pre +:+ sub +:+ post.

(** ** exceptions.py *)

Module PolicyDeniedError.
(** The attributes set by [__init__]; [message] is the argument handed to
    [Exception.__init__], that is [str(e)]. *)
Record t : Type := Build {
  action : value;
  policy : value;
  rule : value;
  reason : value;
  message : string
}.
End PolicyDeniedError.

(** The exceptions that can cross the client.  The first four are the classes
    of [exceptions.py]; the others are raised by Python or by httpx. *)
Inductive exn : Type :=
| MeshGuardError (msg : string)
| AuthenticationError (msg : string)
| PolicyDenied (e : PolicyDeniedError.t)
| RateLimitError (msg : string)
| JSONDecodeError
| UnicodeDecodeError
| AttributeError
| KeyError (key : string)
| TypeError
| TransportError (msg : string).

(** The class of an exception, as an [except] clause or [pytest.raises] sees it. *)
Inductive exn_class : Type :=
| CMeshGuardError | CAuthenticationError | CPolicyDeniedError | CRateLimitError
| CJSONDecodeError | CUnicodeDecodeError | CAttributeError | CKeyError
| CTypeError | CTransportError.

Definition class_of (e : exn) : exn_class :=
  match e with
  | MeshGuardError _ => CMeshGuardError
  | AuthenticationError _ => CAuthenticationError
  | PolicyDenied _ => CPolicyDeniedError
  | RateLimitError _ => CRateLimitError
  | JSONDecodeError => CJSONDecodeError
  | UnicodeDecodeError => CUnicodeDecodeError
  | AttributeError => CAttributeError
  | KeyError _ => CKeyError
  | TypeError => CTypeError
  | TransportError _ => CTransportError
  end.

Inductive result (A : Type) : Type :=
| Ok (a : A)
| Raise (e : exn).
Arguments Ok {A} a.
Arguments Raise {A} e.

(** ** The wire: requests, responses and the gateway *)

(** One call on the httpx client: [request(method, url, headers=..., **kwargs)]. *)
Record Request : Type := {
  method : string;
  url : string;
  headers : gmap string string;
  kwargs : list (string * value)
}.

(** Why [response.json()] fails on a body: the bytes are not UTF-8 text, or
    the text is not JSON. *)
Inductive decode_error : Type :=
| NotUnicode
| NotJSON.

(** The exception [response.json()] raises for each. *)
Definition decode_exn (err : decode_error) : exn :=
  match err with
  | NotUnicode => UnicodeDecodeError
  | NotJSON => JSONDecodeError
  end.

(** What the client reads of an [httpx.Response]: [json] is the value
    [response.json()] returns, [None] when the body does not decode, and
    [json_error] is then the reason why it does not. *)
Record Response : Type := {
  status_code : Z;
  content : string;
  text : string;
  json : option value;
  json_error : decode_error
}.

(** What a call on the httpx client does: it returns a response or raises. *)
Inductive Outcome : Type :=
| Reply (r : Response)
| Fault (e : exn).

(** ** client.py: data classes *)

Module PolicyDecision.
Record t : Type := Build {
  allowed : bool;
  action : string;
  decision : string;
  policy : value;
  rule : value;
  reason : value;
  trace_id : option string
}.
End PolicyDecision.

Module Agent.
Record t : Type := Build {
  id : value;
  name : value;
  trust_tier : value;
  tags : value;
  org_id : value
}.
End Agent.

(** The configuration held by a [MeshGuardClient].  The [timeout] is handed to
    [httpx.Client] and read by no method of the client; it is not kept. *)
Record MeshGuardClient : Type := {
  gateway_url : string;
  agent_token : option string;
  admin_token : option string;
  trace_id : string
}.

(** [a or default] where [default] is a string: [a] when it is neither [None]
    nor empty, [default] otherwise. *)
Definition or_default (a : option string) (default : string) : string :=
  match opt_or a (Some default) with
  | Some s => s
  | None => default
  end.

(** [MeshGuardClient.__init__].  [environ] is [os.environ] and [uuid4] the
    text of the identifier [uuid.uuid4()] draws. *)
Definition MeshGuardClient_init (environ : gmap string string) (uuid4 : string)
    (gateway_url agent_token admin_token trace_id : option string)
  : MeshGuardClient :=
  {| gateway_url :=
       rstrip_slash
         (or_default (opt_or gateway_url (environ !! "MESHGUARD_GATEWAY_URL"))
                     "http://localhost:3100");
     agent_token := opt_or agent_token (environ !! "MESHGUARD_AGENT_TOKEN");
     admin_token := opt_or admin_token (environ !! "MESHGUARD_ADMIN_TOKEN");
     trace_id := or_default trace_id uuid4 |}.

(** [MeshGuardClient._headers]. *)
Definition _headers (c : MeshGuardClient) (include_auth : bool)
  : gmap string string :=
  let headers : gmap string string :=
    {[ "X-MeshGuard-Trace-ID" := trace_id c ]} in
  match agent_token c with
  | Some token =>
      if include_auth && truthy (VStr token)
      then <[ "Authorization" := "Bearer " +:+ token ]> headers
      else headers
  | None => headers
  end.

(** [MeshGuardClient._admin_headers]. *)
Definition _admin_headers (c : MeshGuardClient)
  : result (gmap string string) :=
  match admin_token c with
  | Some token =>
      if truthy (VStr token)
      then Ok (<[ "X-MeshGuard-Trace-ID" := trace_id c ]>
               {[ "X-Admin-Token" := token ]})
      else Raise (AuthenticationError "Admin token required for this operation")
  | None => Raise (AuthenticationError "Admin token required for this operation")
  end.

(** ** The monad of client methods *)

(** The state a method runs in: the requests handed to the httpx client so
    far, oldest first, and the state of the calling program. *)
Record World (U : Type) : Type := {
  sent : list Request;
  user : U
}.
Arguments sent {U} w.
Arguments user {U} w.

Definition M (U A : Type) : Type := World U → result A * World U.

Definition raise {U A} (e : exn) : M U A := λ w, (Raise e, w).

(** A computation that cannot touch the world. *)
Definition lift {U A} (r : result A) : M U A := λ w, (r, w).

(** Sequencing: [x ← m; k] runs [k] unless [m] raised. *)
Global Instance M_ret {U} : MRet (M U) := λ A a w, (Ok a, w).

Global Instance M_bind {U} : MBind (M U) :=
  λ A B k m w, match m w with
               | (Ok a, w') => k a w'
               | (Raise e, w') => (Raise e, w')
               end.

(** [try: m  except PolicyDeniedError as e: handler e]. *)
Definition try_except_PolicyDenied {U A}
    (m : M U A) (handler : PolicyDeniedError.t → M U A) : M U A :=
  λ w, match m w with
       | (Raise (PolicyDenied e), w') => handler e w'
       | r => r
       end.

(** [try: m  except Exception: handler]. *)
Definition try_except_Exception {U A} (m : M U A) (handler : M U A) : M U A :=
  λ w, match m w with
       | (Raise _, w') => handler w'
       | r => r
       end.

(** [with cm as a: body], where [enter] and [exit] are the [__enter__] and
    [__exit__] of the context manager.  [__exit__] is not called when
    [__enter__] raises; an exception of the body is swallowed only when
    [__exit__] returns a true value. *)
Definition py_with {U A} (enter : M U A) (exit : A → M U value)
    (body : A → M U unit) : M U unit :=
  λ w, match enter w with
       | (Raise e, w1) => (Raise e, w1)
       | (Ok a, w1) =>
           match body a w1 with
           | (Ok _, w2) =>
               match exit a w2 with
               | (Ok _, w3) => (Ok (), w3)
               | (Raise e, w3) => (Raise e, w3)
               end
           | (Raise e, w2) =>
               match exit a w2 with
               | (Ok v, w3) => if truthy v then (Ok (), w3) else (Raise e, w3)
               | (Raise e', w3) => (Raise e', w3)
               end
           end
       end.

(** ** client.py and langchain.py: the objects with methods *)

Module GovernedContext.
Record t : Type := Build {
  client : MeshGuardClient;
  action : string;
  resource : option string;
  decision : option PolicyDecision.t
}.
End GovernedContext.

(** A tool of the host framework: an opaque object of which the wrapper reads
    the attributes [name] and [description] (when it has them), the name of
    its class, and its [run] method. *)
Module Tool.
Record t (U Args R : Type) : Type := Build {
  name : option string;
  class_name : string;
  description : option string;
  run : Args → M U R
}.
Arguments Build {U Args R}.
Arguments name {U Args R}.
Arguments class_name {U Args R}.
Arguments description {U Args R}.
Arguments run {U Args R}.
End Tool.

Module GovernedTool.
Record t (U Args R : Type) : Type := Build {
  tool : Tool.t U Args R;
  action : string;
  client : MeshGuardClient;
  on_deny : option (PolicyDeniedError.t → Args → M U R);
  name : string;
  description : string
}.
Arguments Build {U Args R}.
Arguments tool {U Args R}.
Arguments action {U Args R}.
Arguments client {U Args R}.
Arguments on_deny {U Args R}.
Arguments name {U Args R}.
Arguments description {U Args R}.
End GovernedTool.

Section Client.
(** [U] is the state of the calling program.  [repr] is Python's built-in
    [repr] on lists and dictionaries, and [gateway] is the behaviour of the
    httpx client: what a request yields, given the requests made before. *)
Context {U : Type}.
Variable repr : value → string.
Variable gateway : list Request → Request → Outcome.

(** [str(v)], as an f-string interpolates it. *)
Definition py_str (v : value) : string :=
  match v with
  | VNone => "None"
  | VBool true => "True"
  | VBool false => "False"
  | VInt n => pretty n
  | VStr s => s
  | VList _ | VDict _ => repr v
  end.

(** [PolicyDeniedError.__init__]. *)
Definition PolicyDeniedError_init (action policy rule reason : value)
  : PolicyDeniedError.t :=
  let self_reason := py_or reason (VStr "Access denied by policy") in
  let message := "Action '" +:+ py_str action +:+ "' denied" in
  let message :=
    if truthy policy
    then message +:+ " by policy '" +:+ py_str policy +:+ "'"
    else message in
  let message :=
    if truthy rule
    then message +:+ " (rule: " +:+ py_str rule +:+ ")"
    else message in
  let message := message +:+ ": " +:+ py_str self_reason in
  PolicyDeniedError.Build action policy rule self_reason message.

(** [response.json() if response.content else {}]. *)
Definition body_json (response : Response) : result value :=
  if truthy (VStr (content response))
  then match json response with
       | Some data => Ok data
       | None => Raise (decode_exn (json_error response))
       end
  else Ok (VDict []).

(** [data.get(key, default)]; only a dictionary has a [get]. *)
Definition dict_get (data : value) (key : string) (default : value)
  : result value :=
  match data with
  | VDict d => Ok (match assoc key d with Some v => v | None => default end)
  | _ => Raise AttributeError
  end.

(** [r1] then [k], for computations that only raise or return. *)
Definition rbind {A B} (r : result A) (k : A → result B) : result B :=
  match r with
  | Ok a => k a
  | Raise e => Raise e
  end.

(** [MeshGuardClient._handle_response]. *)
Definition _handle_response (response : Response) : result value :=
  if (status_code response =? 401)%Z then
    Raise (AuthenticationError "Invalid or expired token")
  else if (status_code response =? 403)%Z then
    rbind (body_json response) (λ data,
    rbind (dict_get data "action" (VStr "unknown")) (λ action,
    rbind (dict_get data "policy" VNone) (λ policy,
    rbind (dict_get data "rule" VNone) (λ rule,
    rbind (dict_get data "message" (VStr "Access denied by policy")) (λ reason,
    Raise (PolicyDenied (PolicyDeniedError_init action policy rule reason)))))))
  else if (status_code response =? 429)%Z then
    Raise (RateLimitError "Rate limit exceeded")
  else if (400 <=? status_code response)%Z then
    Raise (MeshGuardError
             ("Request failed: " +:+ pretty (status_code response)
                +:+ " " +:+ text response))
  else body_json response.

(** A call on the httpx client: the request is recorded, and the gateway
    answers or the call raises. *)
Definition send (req : Request) : M U Response :=
  λ w,
    let w' := {| sent := sent w ++ [req]; user := user w |} in
    match gateway (sent w) req with
    | Reply response => (Ok response, w')
    | Fault e => (Raise e, w')
    end.

(** The request built by [check]: the headers of [_headers()], the action,
    and the resource when one is given. *)
Definition check_request (c : MeshGuardClient) (action : string)
    (resource : option string) : Request :=
  let headers := <[ "X-MeshGuard-Action" := action ]> (_headers c true) in
  let headers :=
    match resource with
    | Some r =>
        if truthy (VStr r)
        then <[ "X-MeshGuard-Resource" := r ]> headers
        else headers
    | None => headers
    end in
  {| method := "GET";
     url := gateway_url c +:+ "/proxy/check";
     headers := headers;
     kwargs := [] |}.

(** [MeshGuardClient.check]. *)
Definition check (c : MeshGuardClient) (action : string)
    (resource : option string) : M U PolicyDecision.t :=
  try_except_PolicyDenied
    (response ← send (check_request c action resource);
     if (status_code response =? 403)%Z then
       data ← lift (body_json response);
       policy ← lift (dict_get data "policy" VNone);
       rule ← lift (dict_get data "rule" VNone);
       reason ← lift (dict_get data "message" VNone);
       mret (PolicyDecision.Build false action "deny" policy rule reason
               (Some (trace_id c)))
     else
       data ← lift (_handle_response response);
       policy ← lift (dict_get data "policy" VNone);
       mret (PolicyDecision.Build true action "allow" policy VNone VNone
               (Some (trace_id c))))
    (λ e,
       mret (PolicyDecision.Build false action "deny"
               (PolicyDeniedError.policy e) (PolicyDeniedError.rule e)
               (PolicyDeniedError.reason e) (Some (trace_id c)))).

(** [MeshGuardClient.enforce]. *)
Definition enforce (c : MeshGuardClient) (action : string)
    (resource : option string) : M U PolicyDecision.t :=
  decision ← check c action resource;
  if negb (PolicyDecision.allowed decision) then
    raise (PolicyDenied
             (PolicyDeniedError_init (VStr action)
                (PolicyDecision.policy decision)
                (PolicyDecision.rule decision)
                (PolicyDecision.reason decision)))
  else mret decision.

(** [MeshGuardClient.govern]. *)
Definition govern (c : MeshGuardClient) (action : string)
    (resource : option string) : GovernedContext.t :=
  GovernedContext.Build c action resource None.

(** [GovernedContext.__enter__]: the decision is returned and also stored
    in the context object, whose new state is the second component. *)
Definition __enter__ (self : GovernedContext.t)
  : M U (PolicyDecision.t * GovernedContext.t) :=
  decision ← enforce (GovernedContext.client self)
                     (GovernedContext.action self)
                     (GovernedContext.resource self);
  mret (decision,
        GovernedContext.Build (GovernedContext.client self)
          (GovernedContext.action self) (GovernedContext.resource self)
          (Some decision)).

(** [GovernedContext.__exit__]: [pass], so it returns [None]. *)
Definition __exit__ (self : GovernedContext.t) : M U value := mret VNone.

(** [with client.govern(action, resource) as decision: body decision]. *)
Definition with_govern (c : MeshGuardClient) (action : string)
    (resource : option string) (body : PolicyDecision.t → M U unit)
  : M U unit :=
  py_with (__enter__ (govern c action resource))
          (λ entered, __exit__ (snd entered))
          (λ entered, body (fst entered)).

(** [MeshGuardClient.request]: [headers] is the [headers] keyword argument
    when the caller passed one, [kwargs] the other keyword arguments. *)
Definition request (c : MeshGuardClient) (method path action : string)
    (headers : option (gmap string string)) (kwargs : list (string * value))
  : M U Response :=
  let headers : gmap string string :=
    match headers with Some h => h | None => ∅ end in
  let headers := _headers c true ∪ headers in
  let headers := <[ "X-MeshGuard-Action" := action ]> headers in
  response ← send {| method := method;
                     url := gateway_url c +:+ "/proxy/" +:+ lstrip_slash path;
                     headers := headers;
                     kwargs := kwargs |};
  lift (_handle_response response);;
  mret response.

Definition get c path action headers kwargs :=
  request c "GET" path action headers kwargs.
Definition post c path action headers kwargs :=
  request c "POST" path action headers kwargs.
Definition put c path action headers kwargs :=
  request c "PUT" path action headers kwargs.
Definition delete c path action headers kwargs :=
  request c "DELETE" path action headers kwargs.

(** The request of [MeshGuardClient.health]: a bare [get] of the URL. *)
Definition health_request (c : MeshGuardClient) : Request :=
  {| method := "GET";
     url := gateway_url c +:+ "/health";
     headers := ∅;
     kwargs := [] |}.

(** [MeshGuardClient.health]. *)
Definition health (c : MeshGuardClient) : M U value :=
  response ← send (health_request c);
  lift (match json response with
        | Some data => Ok data
        | None => Raise (decode_exn (json_error response))
        end).

(** [MeshGuardClient.is_healthy]. *)
Definition is_healthy (c : MeshGuardClient) : M U bool :=
  try_except_Exception
    (h ← health c;
     status ← lift (dict_get h "status" VNone);
     mret (match status with
           | VStr s => String.eqb s "healthy"
           | _ => false
           end))
    (mret false).

(** [for a in v]: the elements a [for] loop or a comprehension visits (the
    keys of a dictionary, the characters of a string). *)
Definition py_iter (v : value) : result (list value) :=
  match v with
  | VList l => Ok l
  | VDict d => Ok (map (λ kv, VStr (fst kv)) d)
  | VStr s => Ok (map (λ ch, VStr (String ch "")) (String.list_ascii_of_string s))
  | VNone | VBool _ | VInt _ => Raise TypeError
  end.

(** [a[key]] for a string key. *)
Definition subscript (a : value) (key : string) : result value :=
  match a with
  | VDict d =>
      match assoc key d with
      | Some v => Ok v
      | None => Raise (KeyError key)
      end
  | _ => Raise TypeError
  end.

(** The [Agent(...)] of the comprehension in [list_agents]. *)
Definition make_agent (a : value) : result Agent.t :=
  rbind (subscript a "id") (λ id,
  rbind (subscript a "name") (λ name,
  rbind (subscript a "trustTier") (λ trust_tier,
  rbind (dict_get a "tags" (VList [])) (λ tags,
  rbind (dict_get a "orgId" VNone) (λ org_id,
  Ok (Agent.Build id name trust_tier tags org_id)))))).

Fixpoint comprehension {A B} (f : A → result B) (l : list A)
  : result (list B) :=
  match l with
  | [] => Ok []
  | a :: l' => rbind (f a) (λ b, rbind (comprehension f l') (λ bs, Ok (b :: bs)))
  end.

(** [MeshGuardClient.list_agents]. *)
Definition list_agents (c : MeshGuardClient) : M U (list Agent.t) :=
  headers ← lift (_admin_headers c);
  response ← send {| method := "GET";
                     url := gateway_url c +:+ "/admin/agents";
                     headers := headers;
                     kwargs := [] |};
  data ← lift (_handle_response response);
  agents ← lift (dict_get data "agents" (VList []));
  items ← lift (py_iter agents);
  lift (comprehension make_agent items).

(** [MeshGuardClient.create_agent]. *)
Definition create_agent (c : MeshGuardClient) (name trust_tier : string)
    (tags : option (list string)) : M U value :=
  let tags := match tags with Some (t :: ts) => t :: ts | _ => [] end in
  let payload :=
    VDict [("name", VStr name); ("trustTier", VStr trust_tier);
           ("tags", VList (map VStr tags))] in
  headers ← lift (_admin_headers c);
  response ← send {| method := "POST";
                     url := gateway_url c +:+ "/admin/agents";
                     headers := headers;
                     kwargs := [("json", payload)] |};
  lift (_handle_response response).

(** [MeshGuardClient.revoke_agent]. *)
Definition revoke_agent (c : MeshGuardClient) (agent_id : string) : M U unit :=
  headers ← lift (_admin_headers c);
  response ← send {| method := "DELETE";
                     url := gateway_url c +:+ "/admin/agents/" +:+ agent_id;
                     headers := headers;
                     kwargs := [] |};
  lift (_handle_response response);;
  mret ().

(** [MeshGuardClient.list_policies]. *)
Definition list_policies (c : MeshGuardClient) : M U value :=
  headers ← lift (_admin_headers c);
  response ← send {| method := "GET";
                     url := gateway_url c +:+ "/admin/policies";
                     headers := headers;
                     kwargs := [] |};
  data ← lift (_handle_response response);
  lift (dict_get data "policies" (VList [])).

(** [MeshGuardClient.get_audit_log]. *)
Definition get_audit_log (c : MeshGuardClient) (limit : Z)
    (decision : option string) : M U value :=
  let params := [("limit", VInt limit)] in
  let params :=
    match decision with
    | Some d => if truthy (VStr d)
                then (params ++ [("decision", VStr d)])%list
                else params
    | None => params
    end in
  headers ← lift (_admin_headers c);
  response ← send {| method := "GET";
                     url := gateway_url c +:+ "/admin/audit";
                     headers := headers;
                     kwargs := [("params", VDict params)] |};
  data ← lift (_handle_response response);
  lift (dict_get data "entries" (VList [])).

(** ** langchain.py: [GovernedTool] *)

Context {Args R : Type}.

(** [GovernedTool.__init__]; [environ] and [uuid4] serve the
    [MeshGuardClient()] built when no client is passed. *)
Definition GovernedTool_init (environ : gmap string string) (uuid4 : string)
    (tool : Tool.t U Args R) (action : string)
    (client : option MeshGuardClient)
    (on_deny : option (PolicyDeniedError.t → Args → M U R))
  : GovernedTool.t U Args R :=
  GovernedTool.Build tool action
    (match client with
     | Some c => c
     | None => MeshGuardClient_init environ uuid4 None None None None
     end)
    on_deny
    (match Tool.name tool with Some n => n | None => Tool.class_name tool end)
    (match Tool.description tool with Some d => d | None => "" end).

(** [GovernedTool.run]. *)
Definition run (self : GovernedTool.t U Args R) (args : Args) : M U R :=
  try_except_PolicyDenied
    (enforce (GovernedTool.client self) (GovernedTool.action self) None;;
     Tool.run (GovernedTool.tool self) args)
    (λ e,
       match GovernedTool.on_deny self with
       | Some on_deny => on_deny e args
       | None => raise (PolicyDenied e)
       end).

End Client.

(** ** langchain.py: the toolkit and the decorator *)

Module GovernedToolkit.
Record t (U Args R : Type) : Type := Build {
  tools : list (Tool.t U Args R);
  client : MeshGuardClient;
  action_map : gmap string string;
  default_action : string;
  on_deny : option (PolicyDeniedError.t → Args → M U R)
}.
Arguments Build {U Args R}.
Arguments tools {U Args R}.
Arguments client {U Args R}.
Arguments action_map {U Args R}.
Arguments default_action {U Args R}.
Arguments on_deny {U Args R}.
End GovernedToolkit.

(** A keyword argument of a decorated function: the decision the wrapper
    injects, or any other object the caller passed. *)
Inductive kwarg (Obj : Type) : Type :=
| KwDecision (decision : PolicyDecision.t)
| KwObject (o : Obj).
Arguments KwDecision {Obj} decision.
Arguments KwObject {Obj} o.

(** A Python function under the decorator: the names in
    [func.__code__.co_varnames] and what a call with positional arguments
    [args] and keyword arguments [kwargs] does. *)
Module PyFunc.
Record t (U Args Obj R : Type) : Type := Build {
  co_varnames : list string;
  call : Args → gmap string (kwarg Obj) → M U R
}.
Arguments Build {U Args Obj R}.
Arguments co_varnames {U Args Obj R}.
Arguments call {U Args Obj R}.
End PyFunc.

Section Langchain.
Context {U Args R Obj : Type}.
Variable repr : value → string.
Variable gateway : list Request → Request → Outcome.

(** [GovernedTool.__call__]. *)
Definition __call__ (self : GovernedTool.t U Args R) (args : Args) : M U R :=
  run repr gateway self args.

(** [GovernedToolkit.__init__]; the parameter [default_action] defaults to
    "execute:tool", and [environ] and [uuid4] serve the [MeshGuardClient()]
    built when no client is passed. *)
Definition GovernedToolkit_init (environ : gmap string string) (uuid4 : string)
    (tools : list (Tool.t U Args R)) (client : option MeshGuardClient)
    (action_map : option (gmap string string)) (default_action : string)
    (on_deny : option (PolicyDeniedError.t → Args → M U R))
  : GovernedToolkit.t U Args R :=
  GovernedToolkit.Build tools
    (match client with
     | Some c => c
     | None => MeshGuardClient_init environ uuid4 None None None None
     end)
    (match action_map with
     | Some m => if decide (m = ∅) then ∅ else m
     | None => ∅
     end)
    default_action on_deny.

(** [GovernedToolkit.get_action]. *)
Definition get_action (self : GovernedToolkit.t U Args R)
    (tool : Tool.t U Args R) : string :=
  let name :=
    match Tool.name tool with Some n => n | None => Tool.class_name tool end in
  match GovernedToolkit.action_map self !! name with
  | Some action => action
  | None => GovernedToolkit.default_action self
  end.

(** [GovernedToolkit.get_tools]; [environ] and [uuid4] are those of each
    [GovernedTool(...)] call. *)
Definition get_tools (environ : gmap string string) (uuid4 : string)
    (self : GovernedToolkit.t U Args R) : list (GovernedTool.t U Args R) :=
  map (λ tool,
         GovernedTool_init environ uuid4 tool (get_action self tool)
           (Some (GovernedToolkit.client self)) (GovernedToolkit.on_deny self))
      (GovernedToolkit.tools self).

(** What the [except PolicyDeniedError as e] clause of the decorator's
    wrapper does, [kwargs] being the keyword arguments as they are when the
    exception arrives. *)
Definition wrapper_denied
    (on_deny : option (PolicyDeniedError.t → Args
                       → gmap string (kwarg Obj) → M U R))
    (e : PolicyDeniedError.t) (args : Args)
    (kwargs : gmap string (kwarg Obj)) : M U R :=
  match on_deny with
  | Some on_deny => on_deny e args kwargs
  | None => raise (PolicyDenied e)
  end.

(** The [wrapper] that [governed_tool(action, client, on_deny)(func)] returns,
    called with [args] and [kwargs]; [environ] and [uuid4] serve the
    [MeshGuardClient()] built at each call when no client was given.  The
    [try] block is split at the call of [func]: before it [kwargs] is as
    passed, from it on it holds the injected decision when [func] has a
    variable of that name. *)
Definition governed_tool (action : string) (client : option MeshGuardClient)
    (on_deny : option (PolicyDeniedError.t → Args
                       → gmap string (kwarg Obj) → M U R))
    (func : PyFunc.t U Args Obj R)
    (environ : gmap string string) (uuid4 : string)
    (args : Args) (kwargs : gmap string (kwarg Obj)) : M U R :=
  let _client :=
    match client with
    | Some c => c
    | None => MeshGuardClient_init environ uuid4 None None None None
    end in
  λ w,
    match enforce repr gateway _client action None w with
    | (Raise (PolicyDenied e), w1) => wrapper_denied on_deny e args kwargs w1
    | (Raise e, w1) => (Raise e, w1)
    | (Ok decision, w1) =>
        let kwargs :=
          if bool_decide ("meshguard_decision" ∈ PyFunc.co_varnames func)
          then <[ "meshguard_decision" := KwDecision decision ]> kwargs
          else kwargs in
        try_except_PolicyDenied (PyFunc.call func args kwargs)
          (λ e, wrapper_denied on_deny e args kwargs) w1
    end.

End Langchain.

(** ** Auxiliary definitions for the statements *)

(** The world once [req] has been handed to the httpx client. *)
Definition after_send {U} (req : Request) (w : World U) : World U :=
  {| sent := sent w ++ [req]; user := user w |}.


(** The text of the message of the generic failure. *)
Definition request_failed_message (response : Response) : string :=
  "Request failed: " +:+ pretty (status_code response) +:+ " " +:+ text response.

(** A body that [check] can read: empty, or decoding to a JSON object. *)
Definition readable_body (response : Response) : Prop :=
  content response = "" ∨ ∃ d, json response = Some (VDict d).

(** What [enforce] makes of the result of [check]. *)
Definition escalate (repr : value → string) (r : result PolicyDecision.t)
  : result PolicyDecision.t :=
  match r with
  | Ok decision =>
      if PolicyDecision.allowed decision then Ok decision
      else Raise (PolicyDenied
                    (PolicyDeniedError_init repr
                       (VStr (PolicyDecision.action decision))
                       (PolicyDecision.policy decision)
                       (PolicyDecision.rule decision)
                       (PolicyDecision.reason decision)))
  | Raise e => Raise e
  end.

(** The same governed wrapper around another tool. *)
Definition replace_tool {U Args R} (self : GovernedTool.t U Args R)
    (other : Tool.t U Args R) : GovernedTool.t U Args R :=
  GovernedTool.Build other (GovernedTool.action self)
    (GovernedTool.client self) (GovernedTool.on_deny self)
    (GovernedTool.name self) (GovernedTool.description self).

(** What the [except PolicyDeniedError] clause of [GovernedTool.run] does with
    a denial [e] caught in world [w]. *)
Definition denied {U Args R} (self : GovernedTool.t U Args R)
    (e : PolicyDeniedError.t) (args : Args) (w : World U)
  : result R * World U :=
  match GovernedTool.on_deny self with
  | Some on_deny => on_deny e args w
  | None => (Raise (PolicyDenied e), w)
  end.

(** The caller's state after replacing it by [f]: a body with a visible
    side effect. *)
Definition touch {U} (f : U → U) : M U unit :=
  λ w, (Ok (), {| sent := sent w; user := f (user w) |}).

(** ** Concrete clients, replies and worlds for the examples *)

(** A [repr] for runs in which no list or dictionary is ever formatted. *)
Definition no_repr : value → string := λ _, "".

(** A client with an agent token and no admin token, as the tests build it. *)
Definition test_client : MeshGuardClient :=
  MeshGuardClient_init ∅ "6f1c1f0e-8d2b-4c57-9a3e-2b7f5d0c4e11"
    (Some "https://test.meshguard.app") (Some "test-agent-token-12345")
    None None.

Definition empty_403 : Response :=
  {| status_code := 403; content := ""; text := ""; json := None;
     json_error := NotJSON |}.

Definition html_403 : Response :=
  {| status_code := 403; content := "<html>Forbidden</html>";
     text := "<html>Forbidden</html>"; json := None;
     json_error := NotJSON |}.

Definition strict_403 : Response :=
  {| status_code := 403; content := "{}"; text := "{}";
     json := Some (VDict [("policy", VStr "strict"); ("rule", VStr "no-delete");
                          ("message", VStr "Delete operations not allowed")]);
     json_error := NotJSON |}.

(** A deny that names its policy and rule and gives no message. *)
Definition no_message_403 : Response :=
  {| status_code := 403; content := "{}"; text := "{}";
     json := Some (VDict [("policy", VStr "strict"); ("rule", VStr "no-write")]);
     json_error := NotJSON |}.

Definition default_200 : Response :=
  {| status_code := 200; content := "{}"; text := "{}";
     json := Some (VDict [("policy", VStr "default")]);
     json_error := NotJSON |}.

Definition unauthorized_401 : Response :=
  {| status_code := 401; content := "{}"; text := "{}";
     json := Some (VDict []);
     json_error := NotJSON |}.

Definition limited_429 : Response :=
  {| status_code := 429; content := ""; text := ""; json := None;
     json_error := NotJSON |}.

Definition failed_500 : Response :=
  {| status_code := 500; content := "Internal Server Error";
     text := "Internal Server Error"; json := None;
     json_error := NotJSON |}.

(** A gateway that gives the same reply to every request. *)
Definition always (response : Response) : list Request → Request → Outcome :=
  λ _ _, Reply response.

(** A world in which nothing was sent; the caller's state is a counter. *)
Definition start : World nat := {| sent := []; user := 0 |}.

(** ** Auxiliary definitions for the further properties *)

(** The string of [n] slashes. *)
Fixpoint slashes (n : nat) : string :=
  match n with
  | O => ""
  | S n' => String slash (slashes n')
  end.


(** The [Agent] that [list_agents] builds mirrors the element [item] of the
    reply. *)
Definition agent_matches (item : value) (a : Agent.t) : Prop :=
  ∃ fields,
    item = VDict fields
    ∧ assoc "id" fields = Some (Agent.id a)
    ∧ assoc "name" fields = Some (Agent.name a)
    ∧ assoc "trustTier" fields = Some (Agent.trust_tier a)
    ∧ Agent.tags a
      = match assoc "tags" fields with Some t => t | None => VList [] end
    ∧ Agent.org_id a
      = match assoc "orgId" fields with Some o => o | None => VNone end.

(** The keys the client writes into the headers of a proxied request. *)
Definition client_header (c : MeshGuardClient) (key : string) : bool :=
  String.eqb key "X-MeshGuard-Action"
  || String.eqb key "X-MeshGuard-Trace-ID"
  || (String.eqb key "Authorization" && truthy_opt (agent_token c)).

(** A client with an admin token. *)
Definition admin_client : MeshGuardClient :=
  MeshGuardClient_init ∅ "0b9d6f3a-52c1-4e0e-8a57-6d1f0c2e9b44"
    (Some "https://test.meshguard.app/") None (Some "test-admin-token-67890")
    (Some "custom-trace-123").

Definition agents_200 : Response :=
  {| status_code := 200; content := "{}"; text := "{}";
     json := Some (VDict [("agents",
              VList [VDict [("id", VStr "agent-1"); ("name", VStr "alpha");
                            ("trustTier", VStr "verified");
                            ("tags", VList [VStr "prod"])];
                     VDict [("id", VStr "agent-2"); ("name", VStr "beta");
                            ("trustTier", VStr "trusted");
                            ("orgId", VStr "org-456")]])]);
     json_error := NotJSON |}.

Definition healthy_200 : Response :=
  {| status_code := 200; content := "{}"; text := "{}";
     json := Some (VDict [("status", VStr "healthy")]);
     json_error := NotJSON |}.




Definition no_content_204 : Response :=
  {| status_code := 204; content := ""; text := ""; json := None;
     json_error := NotJSON |}.

(** An environment that holds an agent token. *)
Definition env_tokens : gmap string string :=
  {[ "MESHGUARD_AGENT_TOKEN" := "env-agent-token" ]}.

(** Two tools, one with a [name] attribute and one without, and a toolkit
    that maps the first to an action of its own. *)
Definition search_tool : Tool.t nat string string :=
  Tool.Build (Some "serpapi") "SerpAPIWrapper" (Some "Web search")
    (λ query, _ ← touch S; mret ("results for " +:+ query)).

Definition calculator_tool : Tool.t nat string string :=
  Tool.Build None "Calculator" None (λ expr, mret expr).

Definition example_toolkit : GovernedToolkit.t nat string string :=
  GovernedToolkit_init ∅ "unused" [search_tool; calculator_tool]
    (Some test_client) (Some {[ "serpapi" := "read:web_search" ]})
    "execute:tool" None.

(** A function that declares [meshguard_decision] and reports whether it
    received a decision under that name. *)
Definition audited_function : PyFunc.t nat string unit string :=
  PyFunc.Build ["query"; "meshguard_decision"]
    (λ query kwargs,
       _ ← touch S;
       mret (match kwargs !! "meshguard_decision" with
             | Some (KwDecision d) =>
                 query +:+ " as " +:+ PolicyDecision.decision d
             | _ => query
             end)).

(** ** Properties *)

Section Properties.
Context {U : Type}.
Variable repr : value → string.
Variable gateway : list Request → Request → Outcome.

Ltac run_monad :=
  unfold mbind, M_bind, mret, M_ret, lift, raise, try_except_PolicyDenied,
    try_except_Exception in *;
  simpl in *.

Lemma send_eq (req : Request) (w : World U) :
  send gateway req w =
    (match gateway (sent w) req with
     | Reply response => Ok response
     | Fault e => Raise e
     end, after_send req w).
Proof. unfold send, after_send. by destruct (gateway _ _). Qed.

(** [check] hands exactly one request to the httpx client and leaves the
    caller's state alone, whatever the outcome. *)
Lemma check_world (c : MeshGuardClient) action resource (w : World U) :
  snd (check repr gateway c action resource w)
  = after_send (check_request c action resource) w.
Proof.
  unfold check. run_monad. rewrite send_eq.
  repeat (case_match; simplify_eq/=); done.
Qed.

Lemma append_assoc (a b c : string) : (a +:+ b) +:+ c = a +:+ (b +:+ c).
Proof.
  induction a as [|ch a IH]; [done|].
  change (String ch ((a +:+ b) +:+ c) = String ch (a +:+ (b +:+ c))).
  by f_equal.
Qed.

Lemma contains_refl (s : string) : contains s s.
Proof.
  exists "", "". change (s = s +:+ "").
  induction s as [|ch s IH]; [done|].
  change (String ch s = String ch (s +:+ "")). by f_equal.
Qed.

Lemma contains_app_l (sub s t : string) : contains sub s → contains sub (s +:+ t).
Proof.
  intros (pre & post & ->). exists pre, (post +:+ t).
  by rewrite !append_assoc.
Qed.

Lemma contains_app_r (sub s t : string) : contains sub t → contains sub (s +:+ t).
Proof.
  intros (pre & post & ->). exists (s +:+ pre), post.
  by rewrite !append_assoc.
Qed.

Lemma py_or_truthy (v : value) (s : string) :
  s ≠ "" → truthy (py_or v (VStr s)) = true.
Proof.
  intros Hs. unfold py_or. destruct (truthy v) eqn:Hv; [done|].
  simpl. destruct (String.eqb_spec s ""); done.
Qed.

(** C10.  A [PolicyDeniedError] never has an absent reason: the field is the
    reason given when that is a true value, and "Access denied by policy"
    when it is [None] or empty; its message contains the action and the
    reason. *)
Theorem denial_explains_itself (action policy rule reason : value) :
  let e := PolicyDeniedError_init repr action policy rule reason in
  PolicyDeniedError.reason e
    = (if truthy reason then reason else VStr "Access denied by policy")
  ∧ PolicyDeniedError.reason
      (PolicyDeniedError_init repr action policy rule VNone)
    = VStr "Access denied by policy"
  ∧ PolicyDeniedError.reason
      (PolicyDeniedError_init repr action policy rule (VStr ""))
    = VStr "Access denied by policy"
  ∧ PolicyDeniedError.reason e ≠ VNone
  ∧ truthy (PolicyDeniedError.reason e) = true
  ∧ contains (py_str repr action) (PolicyDeniedError.message e)
  ∧ contains (py_str repr (PolicyDeniedError.reason e))
             (PolicyDeniedError.message e).
Proof.
  simpl. split_and!; try done.
  - intros Hnone.
    pose proof (py_or_truthy reason "Access denied by policy") as Ht.
    rewrite Hnone in Ht. by specialize (Ht ltac:(done)).
  - by apply py_or_truthy.
  - assert (contains (py_str repr action)
              ("Action '" +:+ py_str repr action +:+ "' denied")) as Hhead
      by apply contains_app_r, contains_app_l, contains_refl.
    apply contains_app_l.
    destruct (truthy policy), (truthy rule);
      [do 2 apply contains_app_l | apply contains_app_l
      | apply contains_app_l | ]; exact Hhead.
  - do 2 apply contains_app_r. apply contains_refl.
Qed.

(** The action recorded in a decision of [check] is the one asked about. *)
Lemma check_action (c : MeshGuardClient) action resource (w : World U) :
  match fst (check repr gateway c action resource w) with
  | Ok decision => PolicyDecision.action decision = action
  | Raise _ => True
  end.
Proof.
  unfold check. run_monad. rewrite send_eq.
  repeat (case_match; simplify_eq/=); done.
Qed.

Lemma enforce_eq (c : MeshGuardClient) action resource (w : World U) :
  enforce repr gateway c action resource w
  = (escalate repr (fst (check repr gateway c action resource w)),
     after_send (check_request c action resource) w).
Proof.
  rewrite <- (check_world c action resource w).
  pose proof (check_action c action resource w) as Haction.
  unfold enforce, escalate. run_monad.
  destruct (check repr gateway c action resource w) as [[d|e] w1];
    simpl in *; [|done].
  rewrite Haction. by destruct (PolicyDecision.allowed d).
Qed.

(** C1, as amended.  [enforce] is [check] followed by a branch on the
    decision: the same single request is sent, an allow is returned as it
    is, a deny is raised as the [PolicyDeniedError] built from the
    decision's action, policy, rule and reason, and an error of [check]
    passes through.  The error built from a decision has its action, policy
    and rule, and its reason when that is a true value, the default reason
    otherwise. *)
Theorem enforce_is_check_then_escalate (c : MeshGuardClient)
    (action : string) (resource : option string) (w : World U) :
  enforce repr gateway c action resource w
    = (match fst (check repr gateway c action resource w) with
       | Ok decision =>
           if PolicyDecision.allowed decision then Ok decision
           else Raise (PolicyDenied
                         (PolicyDeniedError_init repr
                            (VStr (PolicyDecision.action decision))
                            (PolicyDecision.policy decision)
                            (PolicyDecision.rule decision)
                            (PolicyDecision.reason decision)))
       | Raise e => Raise e
       end,
       snd (check repr gateway c action resource w))
  ∧ sent (snd (check repr gateway c action resource w))
    = (sent w ++ [check_request c action resource])%list
  ∧ sent (snd (enforce repr gateway c action resource w))
    = (sent w ++ [check_request c action resource])%list
  ∧ user (snd (enforce repr gateway c action resource w)) = user w
  ∧ (∀ decision : PolicyDecision.t,
       let failure :=
         PolicyDeniedError_init repr (VStr (PolicyDecision.action decision))
           (PolicyDecision.policy decision) (PolicyDecision.rule decision)
           (PolicyDecision.reason decision) in
       PolicyDeniedError.action failure = VStr (PolicyDecision.action decision)
       ∧ PolicyDeniedError.policy failure = PolicyDecision.policy decision
       ∧ PolicyDeniedError.rule failure = PolicyDecision.rule decision
       ∧ PolicyDeniedError.reason failure
         = py_or (PolicyDecision.reason decision)
                 (VStr "Access denied by policy"))
  ∧ match fst (check repr gateway c action resource w) with
    | Ok decision => PolicyDecision.action decision = action
    | Raise _ => True
    end.
Proof.
  rewrite enforce_eq, check_world. split_and!; try done.
  apply check_action.
Qed.

(** [enforce] leaves the world as [check] does. *)
Lemma enforce_world (c : MeshGuardClient) action resource (w : World U) :
  snd (enforce repr gateway c action resource w)
  = after_send (check_request c action resource) w.
Proof.
  unfold enforce. run_monad.
  pose proof (check_world c action resource w) as Hw.
  destruct (check repr gateway c action resource w) as [[d|e] w1];
    simpl in *; [|done].
  by destruct (PolicyDecision.allowed d).
Qed.

(** C2, as amended.  For a 403 reply whose body is empty or a JSON object,
    [check] returns a deny decision and [enforce] raises a
    [PolicyDeniedError] with the same policy, rule and action; its reason is
    the decision's when that is a true value and "Access denied by policy"
    otherwise. *)
Theorem deny_403_attribution (c : MeshGuardClient) (action : string)
    (resource : option string) (w : World U) (response : Response) :
  gateway (sent w) (check_request c action resource) = Reply response →
  status_code response = 403%Z →
  readable_body response →
  ∃ decision failure,
    fst (check repr gateway c action resource w) = Ok decision
    ∧ PolicyDecision.allowed decision = false
    ∧ fst (enforce repr gateway c action resource w)
      = Raise (PolicyDenied failure)
    ∧ PolicyDeniedError.policy failure = PolicyDecision.policy decision
    ∧ PolicyDeniedError.rule failure = PolicyDecision.rule decision
    ∧ PolicyDeniedError.action failure = VStr (PolicyDecision.action decision)
    ∧ PolicyDeniedError.reason failure
      = (if truthy (PolicyDecision.reason decision)
         then PolicyDecision.reason decision
         else VStr "Access denied by policy").
Proof.
  intros Hreply Hstatus Hbody.
  assert (∃ d, body_json response = Ok (VDict d)) as [d Hd].
  { unfold body_json. destruct Hbody as [-> | [d ->]]; simpl; [by eexists|].
    destruct (negb _); by eexists. }
  rewrite enforce_eq. unfold escalate, check. run_monad. rewrite send_eq, Hreply, Hstatus. simpl.
  rewrite Hd. simpl. by eexists _, _.
Qed.

(** C3, as amended.  For a 403 reply with an empty body, [_handle_response]
    raises a [PolicyDeniedError] whose action is "unknown" and whose reason
    is "Access denied by policy"; [check] returns a deny decision that keeps
    the action asked about and has no policy or rule, and [enforce] raises
    that deny with the action asked about and the default reason. *)
Theorem empty_403_defaults (c : MeshGuardClient) (action : string)
    (resource : option string) (w : World U) (response : Response) :
  status_code response = 403%Z →
  content response = "" →
  (∃ failure,
     _handle_response repr response = Raise (PolicyDenied failure)
     ∧ PolicyDeniedError.action failure = VStr "unknown"
     ∧ PolicyDeniedError.reason failure = VStr "Access denied by policy"
     ∧ PolicyDeniedError.policy failure = VNone
     ∧ PolicyDeniedError.rule failure = VNone)
  ∧ (gateway (sent w) (check_request c action resource) = Reply response →
     (∃ decision,
        fst (check repr gateway c action resource w) = Ok decision
        ∧ PolicyDecision.allowed decision = false
        ∧ PolicyDecision.decision decision = "deny"
        ∧ PolicyDecision.action decision = action
        ∧ PolicyDecision.policy decision = VNone
        ∧ PolicyDecision.rule decision = VNone)
     ∧ (∃ failure,
          fst (enforce repr gateway c action resource w)
          = Raise (PolicyDenied failure)
          ∧ PolicyDeniedError.action failure = VStr action
          ∧ PolicyDeniedError.reason failure = VStr "Access denied by policy")).
Proof.
  intros Hstatus Hcontent. split.
  - unfold _handle_response, body_json. rewrite Hstatus, Hcontent. simpl.
    by eexists.
  - intros Hreply.
    assert (fst (check repr gateway c action resource w)
            = Ok (PolicyDecision.Build false action "deny" VNone VNone VNone
                    (Some (trace_id c)))) as Hcheck.
    { unfold check, body_json. run_monad.
      by rewrite send_eq, Hreply, Hstatus, Hcontent. }
    split; [by eexists|].
    rewrite enforce_eq, Hcheck. by eexists.
Qed.

(** C5.  [_handle_response] turns 401 into an [AuthenticationError], 429
    into a [RateLimitError], and any other status from 400 up, 403 apart,
    into a [MeshGuardError] whose message holds the status code and the body
    text; [check] sends its request once whatever the reply. *)
Theorem status_classification (response : Response) :
  (status_code response = 401%Z →
   _handle_response repr response
   = Raise (AuthenticationError "Invalid or expired token"))
  ∧ (status_code response = 429%Z →
     _handle_response repr response
     = Raise (RateLimitError "Rate limit exceeded"))
  ∧ ((400 ≤ status_code response)%Z →
     status_code response ≠ 401%Z →
     status_code response ≠ 403%Z →
     status_code response ≠ 429%Z →
     _handle_response repr response
     = Raise (MeshGuardError (request_failed_message response))
     ∧ contains (pretty (status_code response))
                (request_failed_message response)
     ∧ contains (text response) (request_failed_message response))
  ∧ (∀ (c : MeshGuardClient) action resource (w : World U),
       gateway (sent w) (check_request c action resource) = Reply response →
       sent (snd (check repr gateway c action resource w))
       = (sent w ++ [check_request c action resource])%list).
Proof.
  split_and!.
  - intros H. unfold _handle_response. by rewrite H.
  - intros H. unfold _handle_response. by rewrite H.
  - intros Hge H401 H403 H429. split_and!.
    + unfold _handle_response, request_failed_message.
      repeat case_match; try done; lia.
    + unfold request_failed_message.
      apply contains_app_r, contains_app_l, contains_refl.
    + unfold request_failed_message.
      do 3 apply contains_app_r. apply contains_refl.
  - intros c action resource w _. by rewrite check_world.
Qed.



(** When [enforce] raises, the scope of [govern] ends there. *)
Lemma with_govern_raise (c : MeshGuardClient) action resource
    (body : PolicyDecision.t → M U unit) (w : World U) (e : exn) :
  fst (enforce repr gateway c action resource w) = Raise e →
  with_govern repr gateway c action resource body w
  = (Raise e, after_send (check_request c action resource) w).
Proof.
  intros He. pose proof (enforce_world c action resource w) as Hw.
  unfold with_govern, py_with, __enter__, govern. run_monad.
  destruct (enforce repr gateway c action resource w) as [[d|e'] w1];
    simpl in *; by simplify_eq.
Qed.

(** When [enforce] returns, the scope of [govern] is its body. *)
Lemma with_govern_ok (c : MeshGuardClient) action resource
    (body : PolicyDecision.t → M U unit) (w : World U)
    (decision : PolicyDecision.t) :
  fst (enforce repr gateway c action resource w) = Ok decision →
  with_govern repr gateway c action resource body w
  = body decision (after_send (check_request c action resource) w).
Proof.
  intros He. pose proof (enforce_world c action resource w) as Hw.
  unfold with_govern, py_with, __enter__, __exit__, govern. run_monad.
  destruct (enforce repr gateway c action resource w) as [[d|e'] w1];
    simpl in *; simplify_eq.
  by destruct (body decision _) as [[[]|e] w2].
Qed.

Lemma dict_get_raise (data : value) key default (e : exn) :
  dict_get data key default = Raise e → e = AttributeError.
Proof. destruct data; simpl; by intros [= <-]. Qed.



(** C6.  The body of a [govern] scope runs exactly when [enforce] returns.
    When [enforce] raises, the scope yields that exception in the world
    [enforce] left, whatever the body is, and a body with a side effect leaves
    the caller's state untouched.  When [enforce] returns a decision, the
    scope is the body run on that decision: leaving the scope adds nothing. *)
Theorem govern_runs_body_iff_enforce_succeeds (c : MeshGuardClient)
    (action : string) (resource : option string)
    (body : PolicyDecision.t → M U unit) (f : U → U) (w : World U) :
  let w1 := after_send (check_request c action resource) w in
  match fst (enforce repr gateway c action resource w) with
  | Raise e =>
      with_govern repr gateway c action resource body w = (Raise e, w1)
      ∧ user (snd (with_govern repr gateway c action resource
                     (λ _, touch f) w)) = user w
  | Ok decision =>
      with_govern repr gateway c action resource body w = body decision w1
      ∧ user (snd (with_govern repr gateway c action resource
                     (λ _, touch f) w)) = f (user w)
  end.
Proof.
  intros w1.
  destruct (fst (enforce repr gateway c action resource w)) as [d|e] eqn:He.
  - split; [by apply with_govern_ok|].
    by rewrite (with_govern_ok _ _ _ _ _ d).
  - split; [by apply with_govern_raise|].
    by rewrite (with_govern_raise _ _ _ _ _ e).
Qed.

(** C8, as amended.  Without an admin token every admin operation raises
    [AuthenticationError("Admin token required for this operation")] and the
    world is as before: no request was handed to the httpx client. *)
Theorem admin_without_token_fails_locally (c : MeshGuardClient)
    (name trust_tier agent_id : string) (tags : option (list string))
    (limit : Z) (decision : option string) (w : World U) :
  truthy_opt (admin_token c) = false →
  let failure := AuthenticationError "Admin token required for this operation" in
  list_agents repr gateway c w = (Raise failure, w)
  ∧ create_agent repr gateway c name trust_tier tags w = (Raise failure, w)
  ∧ revoke_agent repr gateway c agent_id w = (Raise failure, w)
  ∧ list_policies repr gateway c w = (Raise failure, w)
  ∧ get_audit_log repr gateway c limit decision w = (Raise failure, w).
Proof.
  intros Htoken failure.
  assert (_admin_headers c = Raise failure) as Hh.
  { unfold _admin_headers, truthy_opt, of_opt in *.
    destruct (admin_token c) as [token|]; [|done]. by rewrite Htoken. }
  unfold list_agents, create_agent, revoke_agent, list_policies, get_audit_log.
  run_monad. by rewrite Hh.
Qed.

(** C9.  [health] hands the httpx client one request, and that request has no
    header at all, so no correlation id. *)
Theorem health_request_has_no_trace_id (c : MeshGuardClient) (w : World U) :
  snd (health gateway c w) = after_send (health_request c) w
  ∧ headers (health_request c) !! "X-MeshGuard-Trace-ID" = None.
Proof.
  split; [|done].
  unfold health. run_monad. rewrite send_eq.
  repeat (case_match; simplify_eq/=); done.
Qed.

(** The correlation id is the one given to [__init__] when that is not empty,
    and the generated one otherwise. *)
Lemma init_binds_trace_id environ uuid4 gateway_url agent_token admin_token
    (trace : option string) :
  trace_id (MeshGuardClient_init environ uuid4 gateway_url agent_token
              admin_token trace)
  = match trace with
    | Some t => if String.eqb t "" then uuid4 else t
    | None => uuid4
    end.
Proof.
  unfold MeshGuardClient_init, or_default, opt_or, truthy_opt. simpl.
  destruct trace as [t|]; simpl; [|done]. by destruct (String.eqb t "").
Qed.

Lemma check_request_trace_id (c : MeshGuardClient) action resource :
  headers (check_request c action resource) !! "X-MeshGuard-Trace-ID"
  = Some (trace_id c).
Proof.
  unfold check_request, _headers. simpl.
  repeat case_match; by simplify_map_eq.
Qed.

Lemma headers_trace_id (c : MeshGuardClient) (include_auth : bool) :
  _headers c include_auth !! "X-MeshGuard-Trace-ID" = Some (trace_id c).
Proof. unfold _headers. repeat case_match; by simplify_map_eq. Qed.

(** The one request of [request] carries the correlation id, whatever
    headers the caller passed. *)
Lemma request_trace_id (c : MeshGuardClient) (method path action : string)
    (h : option (gmap string string)) (kw : list (string * value))
    (w : World U) :
  ∃ req,
    sent (snd (request repr gateway c method path action h kw w))
    = (sent w ++ [req])%list
    ∧ headers req !! "X-MeshGuard-Trace-ID" = Some (trace_id c).
Proof.
  eexists. split.
  - unfold request. run_monad. rewrite send_eq.
    destruct (gateway _ _) as [response|e]; simpl; [|done].
    by destruct (_handle_response repr response).
  - simpl. rewrite lookup_insert_ne; [|done].
    apply lookup_union_Some_l, headers_trace_id.
Qed.

Lemma admin_headers_trace_id (c : MeshGuardClient) (h : gmap string string) :
  _admin_headers c = Ok h → h !! "X-MeshGuard-Trace-ID" = Some (trace_id c).
Proof.
  unfold _admin_headers. repeat case_match; intros; by simplify_map_eq.
Qed.

Context {Args R : Type}.

(** C7.  [GovernedTool.run].  When [enforce] raises a [PolicyDeniedError], the
    result is what the deny callback makes of the denial and the arguments,
    or the denial itself when there is no callback, and it is the same
    whatever tool is wrapped; any other exception of [enforce] passes
    through; when [enforce] returns, the tool is run on the arguments and
    its result is the result. *)
Theorem governed_tool_run (self : GovernedTool.t U Args R) (args : Args)
    (w : World U) :
  let w1 := after_send (check_request (GovernedTool.client self)
                          (GovernedTool.action self) None) w in
  match fst (enforce repr gateway (GovernedTool.client self)
               (GovernedTool.action self) None w) with
  | Raise (PolicyDenied e) =>
      run repr gateway self args w = denied self e args w1
      ∧ ∀ other, run repr gateway (replace_tool self other) args w
                 = run repr gateway self args w
  | Raise e => run repr gateway self args w = (Raise e, w1)
  | Ok _ =>
      match Tool.run (GovernedTool.tool self) args w1 with
      | (Ok v, w2) => run repr gateway self args w = (Ok v, w2)
      | (Raise (PolicyDenied e), w2) =>
          run repr gateway self args w = denied self e args w2
      | (Raise e, w2) => run repr gateway self args w = (Raise e, w2)
      end
  end.
Proof.
  intros w1.
  pose proof (enforce_world (GovernedTool.client self)
                (GovernedTool.action self) None w) as Hw.
  unfold run, denied, replace_tool. run_monad.
  destruct (enforce repr gateway (GovernedTool.client self)
              (GovernedTool.action self) None w) as [[d|e] w'];
    simpl in *; subst w'; fold w1.
  - destruct (Tool.run (GovernedTool.tool self) args w1) as [[v|e] w2];
      [done|].
    destruct e; try done. by destruct (GovernedTool.on_deny self).
  - destruct e; try done. by destruct (GovernedTool.on_deny self).
Qed.

End Properties.

(** ** The theorems at concrete inputs *)

(** Scenario 1 of the specification: an allow with a policy. *)
Example check_allow_default :
  fst (check no_repr (always default_200) test_client "read:contacts" None start)
  = Ok (PolicyDecision.Build true "read:contacts" "allow" (VStr "default")
          VNone VNone (Some "6f1c1f0e-8d2b-4c57-9a3e-2b7f5d0c4e11")).
Proof. vm_compute. reflexivity. Qed.

(** Scenario 2 of the specification: a deny escalated by [enforce]. *)
Example enforce_deny_strict :
  ∃ failure,
    fst (enforce no_repr (always strict_403) test_client "delete:database"
           None start) = Raise (PolicyDenied failure)
    ∧ PolicyDeniedError.action failure = VStr "delete:database"
    ∧ PolicyDeniedError.policy failure = VStr "strict"
    ∧ PolicyDeniedError.rule failure = VStr "no-delete"
    ∧ PolicyDeniedError.reason failure = VStr "Delete operations not allowed"
    ∧ PolicyDeniedError.message failure
      = "Action 'delete:database' denied by policy 'strict' (rule: no-delete): Delete operations not allowed".
Proof. eexists. vm_compute. split_and!; reflexivity. Qed.

(** A 403 whose body is not JSON: [check] returns no decision, the decoding
    error leaves it. *)
Example check_403_undecodable_body :
  fst (check no_repr (always html_403) test_client "read:contacts" None start)
  = Raise JSONDecodeError.
Proof. vm_compute. reflexivity. Qed.

(** C1, counterexample.  On a 403 that names a policy and a rule and gives
    no message, the [PolicyDeniedError] of [enforce] has the policy, the rule
    and the action of the decision of [check], and a reason the decision
    does not have: it does not carry the decision's attribution as it is. *)
Lemma escalated_reason_is_not_the_decisions :
  ∃ decision failure,
    fst (check no_repr (always no_message_403) test_client "write:email" None
           start) = Ok decision
    ∧ PolicyDecision.allowed decision = false
    ∧ fst (enforce no_repr (always no_message_403) test_client "write:email"
             None start) = Raise (PolicyDenied failure)
    ∧ PolicyDeniedError.policy failure = PolicyDecision.policy decision
    ∧ PolicyDeniedError.rule failure = PolicyDecision.rule decision
    ∧ PolicyDecision.reason decision = VNone
    ∧ PolicyDeniedError.reason failure = VStr "Access denied by policy"
    ∧ PolicyDeniedError.reason failure ≠ PolicyDecision.reason decision.
Proof. eexists _, _. vm_compute. split_and!; try reflexivity. discriminate. Qed.

(** C2, counterexample.  On a 403 with an empty body the decision of [check]
    has no reason while the [PolicyDeniedError] of [enforce] has the default
    one: the reasons are not identical. *)
Lemma deny_reason_differs :
  ∃ decision failure,
    fst (check no_repr (always empty_403) test_client "read:contacts" None start)
    = Ok decision
    ∧ fst (enforce no_repr (always empty_403) test_client "read:contacts"
             None start) = Raise (PolicyDenied failure)
    ∧ PolicyDecision.reason decision = VNone
    ∧ PolicyDeniedError.reason failure = VStr "Access denied by policy"
    ∧ PolicyDeniedError.reason failure ≠ PolicyDecision.reason decision.
Proof. eexists _, _. vm_compute. split_and!; try reflexivity. discriminate. Qed.

(** C2, the amended statement at the deny of scenario 2. *)
Lemma deny_403_attribution_witness :
  always strict_403 (sent start)
    (check_request test_client "delete:database" None) = Reply strict_403
  ∧ status_code strict_403 = 403%Z
  ∧ readable_body strict_403
  ∧ ∃ decision failure,
      fst (check no_repr (always strict_403) test_client "delete:database"
             None start) = Ok decision
      ∧ PolicyDecision.allowed decision = false
      ∧ fst (enforce no_repr (always strict_403) test_client "delete:database"
               None start) = Raise (PolicyDenied failure)
      ∧ PolicyDeniedError.policy failure = PolicyDecision.policy decision
      ∧ PolicyDeniedError.rule failure = PolicyDecision.rule decision
      ∧ PolicyDeniedError.action failure = VStr (PolicyDecision.action decision)
      ∧ PolicyDeniedError.reason failure
        = (if truthy (PolicyDecision.reason decision)
           then PolicyDecision.reason decision
           else VStr "Access denied by policy").
Proof.
  assert (readable_body strict_403) as Hbody by (right; eexists; reflexivity).
  split_and!; [reflexivity | reflexivity | exact Hbody |].
  apply (deny_403_attribution no_repr (always strict_403) test_client
           "delete:database" None start strict_403);
    [reflexivity | reflexivity | exact Hbody].
Defined.

(** C3, counterexample.  On a 403 with an empty body [check] keeps the action
    it was asked about and gives no reason. *)
Lemma check_empty_403_keeps_action :
  ∃ decision,
    fst (check no_repr (always empty_403) test_client "read:contacts" None start)
    = Ok decision
    ∧ PolicyDecision.allowed decision = false
    ∧ PolicyDecision.action decision = "read:contacts"
    ∧ PolicyDecision.action decision ≠ "unknown"
    ∧ PolicyDecision.reason decision = VNone
    ∧ PolicyDecision.reason decision ≠ VStr "Access denied by policy".
Proof. eexists. vm_compute. split_and!; try reflexivity; discriminate. Qed.

(** C3, the amended statement at the empty 403. *)
Lemma empty_403_defaults_witness :
  status_code empty_403 = 403%Z
  ∧ content empty_403 = ""
  ∧ (∃ failure,
       _handle_response no_repr empty_403 = Raise (PolicyDenied failure)
       ∧ PolicyDeniedError.action failure = VStr "unknown"
       ∧ PolicyDeniedError.reason failure = VStr "Access denied by policy"
       ∧ PolicyDeniedError.policy failure = VNone
       ∧ PolicyDeniedError.rule failure = VNone)
  ∧ (∃ decision,
       fst (check no_repr (always empty_403) test_client "read:contacts"
              None start) = Ok decision
       ∧ PolicyDecision.allowed decision = false
       ∧ PolicyDecision.decision decision = "deny"
       ∧ PolicyDecision.action decision = "read:contacts"
       ∧ PolicyDecision.policy decision = VNone
       ∧ PolicyDecision.rule decision = VNone)
  ∧ (∃ failure,
       fst (enforce no_repr (always empty_403) test_client "read:contacts"
              None start) = Raise (PolicyDenied failure)
       ∧ PolicyDeniedError.action failure = VStr "read:contacts"
       ∧ PolicyDeniedError.reason failure = VStr "Access denied by policy").
Proof.
  destruct (empty_403_defaults no_repr (always empty_403) test_client
              "read:contacts" None start empty_403 eq_refl eq_refl)
    as [Hgeneric Hcheck].
  split_and!; [reflexivity | reflexivity | exact Hgeneric | |];
    apply Hcheck; reflexivity.
Defined.


(** C5 at a 401, a 429 and a 500. *)
Lemma status_classification_witness :
  _handle_response no_repr unauthorized_401
  = Raise (AuthenticationError "Invalid or expired token")
  ∧ _handle_response no_repr limited_429
    = Raise (RateLimitError "Rate limit exceeded")
  ∧ _handle_response no_repr failed_500
    = Raise (MeshGuardError "Request failed: 500 Internal Server Error")
  ∧ sent (snd (check no_repr (always failed_500) test_client "read:contacts"
                 None start))
    = [check_request test_client "read:contacts" None].
Proof.
  split_and!.
  - destruct (status_classification (U:=nat) no_repr (always unauthorized_401)
                unauthorized_401) as (H401 & _).
    apply H401. reflexivity.
  - destruct (status_classification (U:=nat) no_repr (always limited_429)
                limited_429) as (_ & H429 & _).
    apply H429. reflexivity.
  - destruct (status_classification (U:=nat) no_repr (always failed_500)
                failed_500) as (_ & _ & H500 & _).
    apply H500; simpl; lia.
  - destruct (status_classification (U:=nat) no_repr (always failed_500)
                failed_500) as (_ & _ & _ & Honce).
    apply (Honce test_client "read:contacts" None start). reflexivity.
Defined.

(** C8, counterexample.  Without an admin token [list_agents] raises an
    [AuthenticationError], the class a 401 reply is turned into: the missing
    credential has no error class of its own. *)
Lemma missing_admin_token_is_authentication_error :
  truthy_opt (admin_token test_client) = false
  ∧ fst (list_agents no_repr (always default_200) test_client start)
    = Raise (AuthenticationError "Admin token required for this operation")
  ∧ _handle_response no_repr unauthorized_401
    = Raise (AuthenticationError "Invalid or expired token")
  ∧ class_of (AuthenticationError "Admin token required for this operation")
    = class_of (AuthenticationError "Invalid or expired token").
Proof. vm_compute. split_and!; reflexivity. Qed.

(** C8, the amended statement at the test client. *)
Lemma admin_without_token_fails_locally_witness :
  truthy_opt (admin_token test_client) = false
  ∧ list_agents no_repr (always default_200) test_client start
    = (Raise (AuthenticationError "Admin token required for this operation"),
       start)
  ∧ revoke_agent no_repr (always default_200) test_client "agent-123" start
    = (Raise (AuthenticationError "Admin token required for this operation"),
       start).
Proof.
  destruct (admin_without_token_fails_locally no_repr (always default_200)
              test_client "new-agent" "verified" "agent-123" None 50 None
              start eq_refl)
    as (Hlist & _ & Hrevoke & _).
  split_and!; [reflexivity | exact Hlist | exact Hrevoke].
Defined.

(** Scenario 3 of the specification: a governed tool with a deny callback,
    against a 403.  The callback's text is returned and the tool, which would
    have counted its call, was not run. *)
Example governed_tool_denied :
  let tool : Tool.t nat string string :=
    Tool.Build (Some "dangerous") "Tool" None
      (λ args, _ ← touch S; mret ("ran " +:+ args)) in
  let self :=
    GovernedTool_init ∅ "unused" tool "write:dangerous" (Some test_client)
      (Some (λ _ _, mret "Access denied")) in
  fst (run no_repr (always empty_403) self "payload" start) = Ok "Access denied"
  ∧ user (snd (run no_repr (always empty_403) self "payload" start)) = 0
  ∧ fst (run no_repr (always default_200) self "payload" start)
    = Ok "ran payload"
  ∧ user (snd (run no_repr (always default_200) self "payload" start)) = 1.
Proof. vm_compute. split_and!; reflexivity. Qed.

(** The guarded body of a [govern] scope counts its runs: none on a deny,
    one on an allow. *)
Example govern_counter :
  user (snd (with_govern no_repr (always strict_403) test_client
               "delete:database" None (λ _, touch S) start)) = 0
  ∧ user (snd (with_govern no_repr (always default_200) test_client
                 "read:contacts" None (λ _, touch S) start)) = 1.
Proof. vm_compute. split; reflexivity. Qed.

(** ** Further properties of the client and of the LangChain wrappers *)

Section Coverage.
Context {U : Type}.
Variable repr : value → string.
Variable gateway : list Request → Request → Outcome.

Ltac run_steps :=
  unfold mbind, M_bind, mret, M_ret, lift, raise, try_except_PolicyDenied,
    try_except_Exception in *;
  simpl in *.

Lemma string_eqb_false (a b : string) : a ≠ b → String.eqb a b = false.
Proof. intros H. by destruct (String.eqb_spec a b). Qed.

Lemma app_slash_not_empty (t : string) : t +:+ "/" ≠ "".
Proof. by destruct t. Qed.

Lemma rstrip_slash_slashes (s : string) :
  ∃ n, s = rstrip_slash s +:+ slashes n.
Proof.
  induction s as [|ch s [n IH]]; [by exists 0|].
  simpl. destruct (String.eqb_spec (rstrip_slash s) "") as [He|He];
    destruct (Ascii.eqb_spec ch slash) as [Hc|Hc]; simpl.
  - exists (S n). subst ch. rewrite He in IH. simpl in IH.
    change (String slash s = String slash (slashes n)). by f_equal.
  - exists n. change (String ch s = String ch (rstrip_slash s +:+ slashes n)).
    by f_equal.
  - exists n. change (String ch s = String ch (rstrip_slash s +:+ slashes n)).
    by f_equal.
  - exists n. change (String ch s = String ch (rstrip_slash s +:+ slashes n)).
    by f_equal.
Qed.

Lemma rstrip_slash_no_trailing (s t : string) : rstrip_slash s ≠ t +:+ "/".
Proof.
  revert t. induction s as [|ch s IH]; intros t.
  - intros H. by apply (app_slash_not_empty t).
  - simpl. destruct (String.eqb_spec (rstrip_slash s) "") as [He|He];
      destruct (Ascii.eqb_spec ch slash) as [Hc|Hc]; simpl.
    + intros H. by apply (app_slash_not_empty t).
    + destruct t as [|ch' t]; [intros [= -> _]; done|].
      intros [= _ H]. by apply (IH t).
    + destruct t as [|ch' t]; [intros [= _ H]; done|].
      intros [= _ H]. by apply (IH t).
    + destruct t as [|ch' t]; [intros [= _ H]; done|].
      intros [= _ H]. by apply (IH t).
Qed.

(** X1.  The gateway URL a client keeps is the one chosen (argument, else
    environment, else the default) with all its trailing slashes removed and
    nothing else: it never ends in a slash. *)
Theorem gateway_url_has_no_trailing_slash (environ : gmap string string)
    (uuid4 : string) (url agent admin trace : option string) :
  let c := MeshGuardClient_init environ uuid4 url agent admin trace in
  let chosen :=
    or_default (opt_or url (environ !! "MESHGUARD_GATEWAY_URL"))
      "http://localhost:3100" in
  (∃ n, chosen = gateway_url c +:+ slashes n)
  ∧ (∀ t, gateway_url c ≠ t +:+ "/").
Proof.
  simpl. split; [apply rstrip_slash_slashes | apply rstrip_slash_no_trailing].
Qed.

Lemma lstrip_slash_slashes (s : string) :
  ∃ n, s = slashes n +:+ lstrip_slash s.
Proof.
  induction s as [|ch s [n IH]]; [by exists 0|].
  simpl. destruct (Ascii.eqb_spec ch slash) as [Hc|Hc].
  - exists (S n). subst ch.
    change (String slash s = String slash (slashes n +:+ lstrip_slash s)).
    by f_equal.
  - by exists 0.
Qed.

Lemma lstrip_slash_no_leading (s t : string) :
  lstrip_slash s ≠ String slash t.
Proof.
  induction s as [|ch s IH]; [done|].
  simpl. destruct (Ascii.eqb_spec ch slash) as [Hc|Hc]; [done|].
  intros [= H _]. done.
Qed.

(** X2.  An argument of [__init__] that is given and not empty beats the
    environment variable; one that is absent or empty falls back to it. *)
Theorem init_argument_beats_environment (environ : gmap string string)
    (uuid4 : string) (url agent admin trace : option string) :
  let c := MeshGuardClient_init environ uuid4 url agent admin trace in
  (∀ a, agent = Some a → a ≠ "" → agent_token c = Some a)
  ∧ (agent = None ∨ agent = Some "" →
     agent_token c = environ !! "MESHGUARD_AGENT_TOKEN")
  ∧ (∀ a, admin = Some a → a ≠ "" → admin_token c = Some a)
  ∧ (admin = None ∨ admin = Some "" →
     admin_token c = environ !! "MESHGUARD_ADMIN_TOKEN").
Proof.
  simpl. unfold opt_or, truthy_opt, of_opt. split_and!.
  - intros a -> Ha. simpl. by rewrite string_eqb_false.
  - by intros [-> | ->].
  - intros a -> Ha. simpl. by rewrite string_eqb_false.
  - by intros [-> | ->].
Qed.

(** X3.  When the generated identifier is not empty, the correlation id of a
    client is never empty, whatever was passed for it. *)
Theorem trace_id_never_empty (environ : gmap string string) (uuid4 : string)
    (url agent admin trace : option string) :
  uuid4 ≠ "" →
  trace_id (MeshGuardClient_init environ uuid4 url agent admin trace) ≠ "".
Proof.
  intros Hu. simpl. unfold or_default, opt_or, truthy_opt, of_opt.
  destruct trace as [t|]; simpl; [|done].
  by destruct (String.eqb_spec t "").
Qed.

(** X4.  The headers of the request of [check] are exactly: the action, the
    correlation id, the bearer credential when the client has a non-empty
    agent token, and the resource when a non-empty one is given. *)
Theorem check_request_headers (c : MeshGuardClient) (action : string)
    (resource : option string) (key : string) :
  headers (check_request c action resource) !! key
  = if String.eqb key "X-MeshGuard-Resource" then
      match resource with
      | Some r => if String.eqb r "" then None else Some r
      | None => None
      end
    else if String.eqb key "X-MeshGuard-Action" then Some action
    else if String.eqb key "Authorization" then
      match agent_token c with
      | Some token =>
          if String.eqb token "" then None else Some ("Bearer " +:+ token)
      | None => None
      end
    else if String.eqb key "X-MeshGuard-Trace-ID" then Some (trace_id c)
    else None.
Proof.
  unfold check_request, _headers. simpl.
  destruct (String.eqb_spec key "X-MeshGuard-Resource") as [->|H1];
    [|destruct (String.eqb_spec key "X-MeshGuard-Action") as [->|H2];
      [|destruct (String.eqb_spec key "Authorization") as [->|H3];
        [|destruct (String.eqb_spec key "X-MeshGuard-Trace-ID") as [->|H4]]]];
    destruct resource as [r|]; try destruct (String.eqb r "");
    destruct (agent_token c) as [token|]; try destruct (String.eqb token "");
    simpl; by simplify_map_eq.
Qed.

(** X5.  The headers of an admin request exist exactly when the client has a
    non-empty admin token, and then hold that token and the correlation id
    and nothing else: the agent's bearer credential is never among them. *)
Theorem admin_headers_content (c : MeshGuardClient) :
  match _admin_headers c with
  | Ok h =>
      truthy_opt (admin_token c) = true
      ∧ h !! "X-Admin-Token" = admin_token c
      ∧ h !! "X-MeshGuard-Trace-ID" = Some (trace_id c)
      ∧ ∀ key, key ≠ "X-Admin-Token" → key ≠ "X-MeshGuard-Trace-ID" →
               h !! key = None
  | Raise e =>
      truthy_opt (admin_token c) = false
      ∧ e = AuthenticationError "Admin token required for this operation"
  end.
Proof.
  unfold _admin_headers, truthy_opt, of_opt.
  destruct (admin_token c) as [token|]; simpl; [|done].
  destruct (String.eqb token ""); simpl; [done|].
  split_and!; try by simplify_map_eq.
  intros key H1 H2. by simplify_map_eq.
Qed.

(** The world after [request]: one request, with the merged headers. *)
Lemma request_world (c : MeshGuardClient) (method path action : string)
    (h : option (gmap string string)) (kw : list (string * value))
    (w : World U) :
  snd (request repr gateway c method path action h kw w)
  = after_send
      {| method := method;
         url := gateway_url c +:+ "/proxy/" +:+ lstrip_slash path;
         headers := <[ "X-MeshGuard-Action" := action ]>
                      (_headers c true ∪ match h with Some h => h | None => ∅ end);
         kwargs := kw |} w.
Proof.
  unfold request. run_steps. rewrite send_eq.
  destruct (gateway _ _) as [response|e]; simpl; [|done].
  by destruct (_handle_response repr response).
Qed.

(** X6.  [request] sends one request whose URL is the gateway URL, "/proxy/"
    and the path without its leading slashes, and nothing but leading
    slashes is removed from the path; the method and the other keyword
    arguments are passed on as they are. *)
Theorem request_url (c : MeshGuardClient) (verb path action : string)
    (h : option (gmap string string)) (kw : list (string * value))
    (w : World U) :
  ∃ req rest n,
    sent (snd (request repr gateway c verb path action h kw w))
    = (sent w ++ [req])%list
    ∧ url req = gateway_url c +:+ "/proxy/" +:+ rest
    ∧ path = slashes n +:+ rest
    ∧ (∀ t, rest ≠ String slash t)
    ∧ method req = verb
    ∧ kwargs req = kw.
Proof.
  destruct (lstrip_slash_slashes path) as [n Hn].
  eexists _, (lstrip_slash path), n. rewrite request_world. simpl.
  split_and!; try done. apply lstrip_slash_no_leading.
Qed.

Lemma headers_other (c : MeshGuardClient) (key : string) :
  client_header c key = false → _headers c true !! key = None.
Proof.
  unfold client_header, _headers, truthy_opt, of_opt. intros H.
  apply orb_false_elim in H as [H Hauth].
  apply orb_false_elim in H as [_ Htrace].
  destruct (String.eqb_spec key "X-MeshGuard-Trace-ID") as [|Hk]; [done|].
  destruct (agent_token c) as [token|]; simpl in *; [|by simplify_map_eq].
  destruct (String.eqb_spec key "Authorization") as [->|Ha]; simpl in *.
  - rewrite Hauth. by simplify_map_eq.
  - destruct (negb (String.eqb token "")); by simplify_map_eq.
Qed.

(** X7.  In the request of [request] the client's own headers win over the
    caller's: the action, the correlation id and, when the client has a
    non-empty agent token, the bearer credential are the client's; every
    other header is the caller's, untouched. *)
Theorem request_merges_headers (c : MeshGuardClient)
    (verb path action : string) (h : option (gmap string string))
    (kw : list (string * value)) (w : World U) :
  ∃ req,
    sent (snd (request repr gateway c verb path action h kw w))
    = (sent w ++ [req])%list
    ∧ headers req !! "X-MeshGuard-Action" = Some action
    ∧ headers req !! "X-MeshGuard-Trace-ID" = Some (trace_id c)
    ∧ (∀ token, agent_token c = Some token → token ≠ "" →
         headers req !! "Authorization" = Some ("Bearer " +:+ token))
    ∧ (∀ key, client_header c key = false →
         headers req !! key
         = match h with Some given => given !! key | None => None end).
Proof.
  eexists. rewrite request_world. split; [reflexivity|]. simpl.
  split_and!; [apply lookup_insert_eq | | |].
  - rewrite lookup_insert_ne; [|done].
    apply lookup_union_Some_l, headers_trace_id.
  - intros token Htoken Hne. rewrite lookup_insert_ne; [|done].
    apply lookup_union_Some_l. unfold _headers. rewrite Htoken. simpl.
    rewrite string_eqb_false; [|done]. by simplify_map_eq.
  - intros key Hkey.
    assert (key ≠ "X-MeshGuard-Action") as Hk.
    { intros ->. by vm_compute in Hkey. }
    rewrite lookup_insert_ne; [|done].
    rewrite lookup_union_r; [|by apply headers_other].
    by destruct h.
Qed.



(** X10.  When the gateway answers a proxied request with a 403 whose body
    is empty or a JSON object, [request] raises a [PolicyDeniedError]; the
    action it names is the one in the body, "unknown" when the body has
    none, never the action passed to [request]. *)
Theorem request_denied (c : MeshGuardClient)
    (verb path action : string) (h : option (gmap string string))
    (kw : list (string * value)) (w : World U) (response : Response)
    (d : list (string * value)) :
  (∀ req, gateway (sent w) req = Reply response) →
  status_code response = 403%Z →
  body_json response = Ok (VDict d) →
  ∃ failure,
    fst (request repr gateway c verb path action h kw w)
    = Raise (PolicyDenied failure)
    ∧ PolicyDeniedError.action failure
      = match assoc "action" d with Some a => a | None => VStr "unknown" end
    ∧ PolicyDeniedError.policy failure
      = match assoc "policy" d with Some p => p | None => VNone end
    ∧ PolicyDeniedError.rule failure
      = match assoc "rule" d with Some r => r | None => VNone end.
Proof.
  intros Hreply Hstatus Hbody.
  unfold request. run_steps. rewrite send_eq, Hreply. simpl.
  unfold _handle_response. rewrite Hstatus, Hbody. simpl. by eexists.
Qed.



(** X12.  [is_healthy] never raises and makes one request; it is true exactly
    when the gateway replied with a JSON object whose "status" is the string
    "healthy", whatever the status code of the reply. *)
Theorem is_healthy_total (c : MeshGuardClient) (w : World U) :
  ∃ b,
    is_healthy gateway c w = (Ok b, after_send (health_request c) w)
    ∧ (b = true
       ↔ ∃ response d,
           gateway (sent w) (health_request c) = Reply response
           ∧ json response = Some (VDict d)
           ∧ assoc "status" d = Some (VStr "healthy")).
Proof.
  unfold is_healthy, health. run_steps. rewrite send_eq.
  destruct (gateway _ _) as [response|e]; simpl.
  - destruct (json response) as [data|] eqn:Hjson; simpl.
    + destruct data as [| | | |l|d]; simpl;
        try (exists false; split; [done|]; split; [done|];
             intros (r & d' & [= <-] & Hd & _); congruence).
      destruct (assoc "status" d) as [status|] eqn:Hstatus.
      * destruct status as [| | |s| |];
          try (exists false; split; [done|]; split; [done|];
               intros (r & d' & [= <-] & Hd & Hs); congruence).
        exists (String.eqb s "healthy"). split; [done|]. split.
        -- intros Hs. apply String.eqb_eq in Hs as ->. by eexists _, _.
        -- intros (r & d' & [= <-] & Hd & Hs).
           rewrite Hjson in Hd. injection Hd as <-.
           rewrite Hstatus in Hs. by injection Hs as ->.
      * exists false. split; [done|]. split; [done|].
        intros (r & d' & [= <-] & Hd & Hs). congruence.
    + exists false. split; [done|]. split; [done|].
      intros (r & d' & [= <-] & Hd & _). congruence.
  - exists false. split; [done|]. split; [done|].
    by intros (r & d' & Hr & _).
Qed.

(** X13.  Every decision [check] returns records the action asked about and
    the client's correlation id, and its two verdict fields agree: an allow
    says "allow" and has neither rule nor reason, a deny says "deny". *)
Theorem check_decision_invariant (c : MeshGuardClient) (action : string)
    (resource : option string) (w : World U) (d : PolicyDecision.t) :
  fst (check repr gateway c action resource w) = Ok d →
  PolicyDecision.action d = action
  ∧ PolicyDecision.trace_id d = Some (trace_id c)
  ∧ ((PolicyDecision.allowed d = true
      ∧ PolicyDecision.decision d = "allow"
      ∧ PolicyDecision.rule d = VNone
      ∧ PolicyDecision.reason d = VNone)
     ∨ (PolicyDecision.allowed d = false
        ∧ PolicyDecision.decision d = "deny")).
Proof.
  unfold check. run_steps. rewrite send_eq.
  repeat (case_match; simplify_eq/=); intros; simplify_eq/=; naive_solver.
Qed.

(** [check] never lets a [PolicyDeniedError] out. *)
Lemma check_never_raises_denied (c : MeshGuardClient) (action : string)
    (resource : option string) (w : World U) (e : PolicyDeniedError.t) :
  fst (check repr gateway c action resource w) ≠ Raise (PolicyDenied e).
Proof.
  unfold check. run_steps. rewrite send_eq.
  repeat (case_match; simplify_eq/=); try done.
  all: match goal with
       | H : dict_get _ _ _ = Raise _ |- _ => by apply dict_get_raise in H
       end.
Qed.

(** X14.  A reply with any status below 400 is an allow for [check]: with an
    empty body or a JSON object it returns an allowed decision carrying the
    policy of the body, if any; with a JSON body that is not an object it
    raises [AttributeError]. *)
Theorem check_allows_below_400 (c : MeshGuardClient) (action : string)
    (resource : option string) (w : World U) (response : Response) :
  gateway (sent w) (check_request c action resource) = Reply response →
  (status_code response < 400)%Z →
  (∀ d, body_json response = Ok (VDict d) →
     fst (check repr gateway c action resource w)
     = Ok (PolicyDecision.Build true action "allow"
             (match assoc "policy" d with Some p => p | None => VNone end)
             VNone VNone (Some (trace_id c))))
  ∧ (∀ v, body_json response = Ok v → (∀ d, v ≠ VDict d) →
       fst (check repr gateway c action resource w) = Raise AttributeError).
Proof.
  intros Hreply Hlt.
  assert (_handle_response repr response = body_json response) as Hresp.
  { unfold _handle_response. repeat case_match; try done; lia. }
  assert ((status_code response =? 403)%Z = false) as H403 by lia.
  unfold check. run_steps. rewrite send_eq, Hreply. simpl.
  rewrite H403, Hresp. split.
  - intros d ->. done.
  - intros v -> Hv. destruct v; try done. by destruct (Hv d).
Qed.

(** X15.  [enforce] returns only allowed decisions, and those are the ones
    [check] returned; a [PolicyDeniedError] it raises comes from a deny of
    [check] and always names the action that was asked about. *)
Theorem enforce_results (c : MeshGuardClient) (action : string)
    (resource : option string) (w : World U) :
  (∀ d, fst (enforce repr gateway c action resource w) = Ok d →
     PolicyDecision.allowed d = true
     ∧ fst (check repr gateway c action resource w) = Ok d)
  ∧ (∀ failure,
       fst (enforce repr gateway c action resource w)
       = Raise (PolicyDenied failure) →
       PolicyDeniedError.action failure = VStr action
       ∧ ∃ d, fst (check repr gateway c action resource w) = Ok d
              ∧ PolicyDecision.allowed d = false).
Proof.
  rewrite enforce_eq. simpl.
  pose proof (check_action repr gateway c action resource w) as Haction.
  pose proof (check_never_raises_denied c action resource w) as Hnever.
  destruct (fst (check repr gateway c action resource w)) as [d|e]; simpl.
  - destruct (PolicyDecision.allowed d) eqn:Hallowed; split.
    + by intros d' [= <-].
    + done.
    + done.
    + intros failure [= <-]. simpl. rewrite Haction. eauto.
  - split; [done|]. intros failure [= ->]. by destruct (Hnever failure).
Qed.





Lemma admin_headers_ok (c : MeshGuardClient) :
  truthy_opt (admin_token c) = true → ∃ h, _admin_headers c = Ok h.
Proof.
  unfold _admin_headers, truthy_opt, of_opt.
  destruct (admin_token c) as [token|]; simpl; [|done].
  intros ->. by eexists.
Qed.

(** X17.  With an admin token, each admin operation fails with exactly the
    exception [_handle_response] raises for the reply. *)
Theorem admin_operations_propagate_errors (c : MeshGuardClient)
    (name trust_tier agent_id : string) (tags : option (list string))
    (limit : Z) (decision : option string) (w : World U)
    (response : Response) (e : exn) :
  truthy_opt (admin_token c) = true →
  (∀ req, gateway (sent w) req = Reply response) →
  _handle_response repr response = Raise e →
  fst (list_agents repr gateway c w) = Raise e
  ∧ fst (create_agent repr gateway c name trust_tier tags w) = Raise e
  ∧ fst (revoke_agent repr gateway c agent_id w) = Raise e
  ∧ fst (list_policies repr gateway c w) = Raise e
  ∧ fst (get_audit_log repr gateway c limit decision w) = Raise e.
Proof.
  intros Htoken Hreply Hresp.
  destruct (admin_headers_ok c Htoken) as [h Hh].
  unfold list_agents, create_agent, revoke_agent, list_policies, get_audit_log.
  run_steps. rewrite Hh. simpl. rewrite !send_eq, !Hreply. simpl.
  by rewrite Hresp.
Qed.

(** X18.  With an admin token, a reply with a status below 400 and an empty
    body is no error: the listing operations return empty lists,
    [create_agent] the empty object and [revoke_agent] nothing. *)
Theorem admin_operations_on_empty_reply (c : MeshGuardClient)
    (name trust_tier agent_id : string) (tags : option (list string))
    (limit : Z) (decision : option string) (w : World U)
    (response : Response) :
  truthy_opt (admin_token c) = true →
  (∀ req, gateway (sent w) req = Reply response) →
  (status_code response < 400)%Z →
  content response = "" →
  fst (list_agents repr gateway c w) = Ok []
  ∧ fst (create_agent repr gateway c name trust_tier tags w) = Ok (VDict [])
  ∧ fst (revoke_agent repr gateway c agent_id w) = Ok ()
  ∧ fst (list_policies repr gateway c w) = Ok (VList [])
  ∧ fst (get_audit_log repr gateway c limit decision w) = Ok (VList []).
Proof.
  intros Htoken Hreply Hlt Hcontent.
  destruct (admin_headers_ok c Htoken) as [h Hh].
  assert (_handle_response repr response = Ok (VDict [])) as Hresp.
  { unfold _handle_response, body_json. rewrite Hcontent.
    repeat case_match; try done; lia. }
  unfold list_agents, create_agent, revoke_agent, list_policies, get_audit_log.
  run_steps. rewrite Hh. simpl. rewrite !send_eq, !Hreply. simpl.
  by rewrite Hresp.
Qed.

Lemma make_agent_matches (item : value) (a : Agent.t) :
  make_agent item = Ok a ↔ agent_matches item a.
Proof.
  unfold make_agent, agent_matches, subscript, dict_get, rbind. split.
  - destruct item as [| | | | |fields]; try done.
    destruct (assoc "id" fields) eqn:Hid; [|done].
    destruct (assoc "name" fields) eqn:Hname; [|done].
    destruct (assoc "trustTier" fields) eqn:Htier; [|done].
    intros [= <-]. by exists fields.
  - intros (fields & -> & -> & -> & -> & Htags & Horg).
    destruct a. simpl in *. by subst.
Qed.

Lemma comprehension_Forall2 {A B} (f : A → result B) (l : list A)
    (bs : list B) :
  comprehension f l = Ok bs ↔ Forall2 (λ a b, f a = Ok b) l bs.
Proof.
  revert bs. induction l as [|a l IH]; intros bs; simpl.
  - split; [by intros [= <-]; constructor | by inversion 1].
  - unfold rbind. split.
    + destruct (f a) as [b|] eqn:Hb; [|done].
      destruct (comprehension f l) as [bs'|] eqn:Hbs; [|done].
      intros [= <-]. constructor; [done|]. by apply IH.
    + inversion 1 as [|? b ? bs' Hb Hbs]; subst. rewrite Hb.
      apply IH in Hbs. by rewrite Hbs.
Qed.

(** X19.  With an admin token and a reply below 400 whose body has a list
    under "agents", [list_agents] returns a list exactly when every element
    is an object with "id", "name" and "trustTier"; the list has one [Agent]
    per element, in order, with those fields, the "tags" of the element or
    an empty list, and its "orgId" or [None]. *)
Theorem list_agents_mirrors_reply (c : MeshGuardClient) (w : World U)
    (response : Response) (d : list (string * value)) (items : list value)
    (agents : list Agent.t) :
  truthy_opt (admin_token c) = true →
  (∀ req, gateway (sent w) req = Reply response) →
  (status_code response < 400)%Z →
  body_json response = Ok (VDict d) →
  assoc "agents" d = Some (VList items) →
  fst (list_agents repr gateway c w) = Ok agents
  ↔ Forall2 agent_matches items agents.
Proof.
  intros Htoken Hreply Hlt Hbody Hagents.
  destruct (admin_headers_ok c Htoken) as [h Hh].
  assert (_handle_response repr response = Ok (VDict d)) as Hresp.
  { unfold _handle_response. rewrite Hbody. repeat case_match; try done; lia. }
  assert (fst (list_agents repr gateway c w) = comprehension make_agent items)
    as ->.
  { unfold list_agents. run_steps. rewrite Hh. simpl.
    rewrite send_eq, Hreply. simpl. rewrite Hresp. simpl. rewrite Hagents.
    simpl. by destruct (comprehension make_agent items). }
  rewrite comprehension_Forall2. split; intros H.
  - eapply Forall2_impl; [exact H|]. intros ??. apply make_agent_matches.
  - eapply Forall2_impl; [exact H|]. intros ??. apply make_agent_matches.
Qed.

(** X20.  The message of a [PolicyDeniedError] begins with the action and
    ends with the reason; it names the policy when there is one and the rule
    when there is one, and with neither it is just
    "Action '<action>' denied: <reason>". *)
Theorem denial_message_format (action policy rule reason : value) :
  let e := PolicyDeniedError_init repr action policy rule reason in
  (∃ rest, PolicyDeniedError.message e
           = "Action '" +:+ py_str repr action +:+ "' denied" +:+ rest)
  ∧ (∃ front, PolicyDeniedError.message e
              = front +:+ ": " +:+ py_str repr (PolicyDeniedError.reason e))
  ∧ (truthy policy = true →
     contains (" by policy '" +:+ py_str repr policy +:+ "'")
              (PolicyDeniedError.message e))
  ∧ (truthy rule = true →
     contains (" (rule: " +:+ py_str repr rule +:+ ")")
              (PolicyDeniedError.message e))
  ∧ (truthy policy = false → truthy rule = false →
     PolicyDeniedError.message e
     = "Action '" +:+ py_str repr action +:+ "' denied: "
         +:+ py_str repr (PolicyDeniedError.reason e)).
Proof.
  simpl. split_and!.
  - destruct (truthy policy), (truthy rule); eexists;
      rewrite ?append_assoc; reflexivity.
  - by eexists.
  - intros ->. apply contains_app_l.
    destruct (truthy rule); [apply contains_app_l|];
      apply contains_app_r, contains_refl.
  - intros ->. apply contains_app_l.
    apply contains_app_r, contains_refl.
  - intros -> ->. by rewrite !append_assoc.
Qed.

Lemma admin_sent {A} (c : MeshGuardClient)
    (req : gmap string string → Request) (k : Response → M U A)
    (w : World U) (h : gmap string string) :
  _admin_headers c = Ok h →
  (∀ h', headers (req h') = h') →
  (∀ response w', snd (k response w') = w') →
  ∃ r,
    sent (snd ((h' ← lift (_admin_headers c);
                response ← send gateway (req h'); k response) w))
    = (sent w ++ [r])%list
    ∧ headers r = h.
Proof.
  intros Hh Hreq Hk. exists (req h). split; [|done].
  run_steps. rewrite Hh. simpl. rewrite send_eq.
  destruct (gateway _ _) as [response|e]; simpl; [by rewrite Hk | done].
Qed.

(** X26.  With an admin token, each admin operation sends exactly one
    request, and that request carries the admin token and the correlation
    id and never the agent's bearer credential. *)
Theorem admin_requests_carry_admin_token (c : MeshGuardClient)
    (name trust_tier agent_id : string) (tags : option (list string))
    (limit : Z) (decision : option string) (w : World U) :
  truthy_opt (admin_token c) = true →
  let admin_request (w' : World U) :=
    ∃ req,
      sent w' = (sent w ++ [req])%list
      ∧ headers req !! "X-Admin-Token" = admin_token c
      ∧ headers req !! "X-MeshGuard-Trace-ID" = Some (trace_id c)
      ∧ headers req !! "Authorization" = None in
  admin_request (snd (list_agents repr gateway c w))
  ∧ admin_request (snd (create_agent repr gateway c name trust_tier tags w))
  ∧ admin_request (snd (revoke_agent repr gateway c agent_id w))
  ∧ admin_request (snd (list_policies repr gateway c w))
  ∧ admin_request (snd (get_audit_log repr gateway c limit decision w)).
Proof.
  intros Htoken admin_request.
  assert (∃ h, _admin_headers c = Ok h
               ∧ h !! "X-Admin-Token" = admin_token c
               ∧ h !! "X-MeshGuard-Trace-ID" = Some (trace_id c)
               ∧ h !! "Authorization" = None) as (h & Hh & Ha & Ht & Hb).
  { unfold _admin_headers, truthy_opt, of_opt in *.
    destruct (admin_token c) as [token|]; simpl in *; [|done].
    rewrite Htoken. eexists. split; [done|]. split_and!; by simplify_map_eq. }
  assert (∀ w' : World U,
            (∃ r, sent w' = (sent w ++ [r])%list ∧ headers r = h) →
            admin_request w') as Hfinish.
  { intros w' (r & Hsent & <-). by exists r. }
  unfold list_agents, create_agent, revoke_agent, list_policies, get_audit_log.
  split_and!; apply Hfinish; (apply admin_sent; [done | done |]);
    intros response w'; run_steps; repeat (case_match; simplify_eq/=); done.
Qed.

Context {Args R Obj : Type}.

Lemma lookup_map {A B} (f : A → B) (l : list A) (i : nat) :
  map f l !! i = f <$> (l !! i).
Proof.
  revert i. induction l as [|a l IH]; intros [|i]; simpl; auto.
Qed.

(** X21.  [get_tools] wraps the tools of a toolkit one by one, in order: the
    i-th governed tool holds the i-th tool, the toolkit's client and deny
    callback, and as action the entry of the action map under the name the
    governed tool shows (the tool's name, or its class name), or the default
    action when the map has none. *)
Theorem toolkit_get_tools (environ : gmap string string) (uuid4 : string)
    (self : GovernedToolkit.t U Args R) :
  length (get_tools environ uuid4 self) = length (GovernedToolkit.tools self)
  ∧ ∀ i tool,
      GovernedToolkit.tools self !! i = Some tool →
      ∃ governed,
        get_tools environ uuid4 self !! i = Some governed
        ∧ GovernedTool.tool governed = tool
        ∧ GovernedTool.client governed = GovernedToolkit.client self
        ∧ GovernedTool.on_deny governed = GovernedToolkit.on_deny self
        ∧ GovernedTool.action governed = get_action self tool
        ∧ GovernedTool.action governed
          = match GovernedToolkit.action_map self
                  !! GovernedTool.name governed with
            | Some action => action
            | None => GovernedToolkit.default_action self
            end.
Proof.
  unfold get_tools. split; [apply length_map|].
  intros i tool Hi. eexists. rewrite lookup_map, Hi. simpl.
  split_and!; done.
Qed.

(** X22.  A toolkit built without an action map, or with an empty one, gives
    every tool the default action; built without a client, it builds one
    client and every governed tool shares it. *)
Theorem toolkit_defaults (environ : gmap string string) (uuid4 uuid4' : string)
    (tools : list (Tool.t U Args R)) (client : option MeshGuardClient)
    (action_map : option (gmap string string)) (default_action : string)
    (on_deny : option (PolicyDeniedError.t → Args → M U R)) :
  let self :=
    GovernedToolkit_init environ uuid4 tools client action_map
      default_action on_deny in
  (action_map = None ∨ action_map = Some ∅ →
   Forall (λ governed, GovernedTool.action governed = default_action)
          (get_tools environ uuid4' self))
  ∧ (client = None →
     Forall (λ governed,
               GovernedTool.client governed
               = MeshGuardClient_init environ uuid4 None None None None)
            (get_tools environ uuid4' self)).
Proof.
  intros self. split.
  - intros Hmap. unfold get_tools. apply Forall_forall.
    intros governed Hin. apply list_elem_of_In in Hin.
    apply in_map_iff in Hin as (tool & <- & _).
    simpl. unfold get_action. simpl.
    destruct Hmap as [-> | ->]; simpl; [|case_decide]; by rewrite lookup_empty.
  - intros ->. unfold get_tools. apply Forall_forall.
    intros governed Hin. apply list_elem_of_In in Hin.
    by apply in_map_iff in Hin as (tool & <- & _).
Qed.

(** X23.  A function under the [governed_tool] decorator is not called when
    enforcement fails: on a [PolicyDeniedError] the result is what the deny
    callback makes of the denial, the positional arguments and the keyword
    arguments as they were passed, or the denial itself when there is no
    callback; any other exception of [enforce] passes through.  In both
    cases the result is the same whatever function is decorated. *)
Theorem governed_tool_denied_skips_function (action : string)
    (c : MeshGuardClient)
    (on_deny : option (PolicyDeniedError.t → Args
                       → gmap string (kwarg Obj) → M U R))
    (func other : PyFunc.t U Args Obj R)
    (environ : gmap string string) (uuid4 : string)
    (args : Args) (kwargs : gmap string (kwarg Obj)) (w : World U) (e : exn) :
  fst (enforce repr gateway c action None w) = Raise e →
  let w1 := after_send (check_request c action None) w in
  governed_tool repr gateway action (Some c) on_deny func environ uuid4
    args kwargs w
  = match e with
    | PolicyDenied failure => wrapper_denied on_deny failure args kwargs w1
    | _ => (Raise e, w1)
    end
  ∧ governed_tool repr gateway action (Some c) on_deny other environ uuid4
      args kwargs w
    = governed_tool repr gateway action (Some c) on_deny func environ uuid4
        args kwargs w.
Proof.
  intros He w1.
  pose proof (enforce_world repr gateway c action None w) as Hw.
  unfold governed_tool.
  destruct (enforce repr gateway c action None w) as [[d|e'] w'];
    simpl in *; simplify_eq. fold w1. by destruct e.
Qed.

(** X24.  When enforcement succeeds, the decorated function is called with
    the positional arguments as passed and with keyword arguments that hold
    the decision (an allowed one) under "meshguard_decision" if the function
    has a variable of that name, replacing whatever the caller passed there,
    and are otherwise those passed; a [PolicyDeniedError] of the function
    itself goes to the deny callback with those keyword arguments. *)
Theorem governed_tool_injects_decision (action : string)
    (c : MeshGuardClient)
    (on_deny : option (PolicyDeniedError.t → Args
                       → gmap string (kwarg Obj) → M U R))
    (func : PyFunc.t U Args Obj R)
    (environ : gmap string string) (uuid4 : string)
    (args : Args) (kwargs : gmap string (kwarg Obj)) (w : World U)
    (decision : PolicyDecision.t) :
  fst (enforce repr gateway c action None w) = Ok decision →
  let w1 := after_send (check_request c action None) w in
  ∃ passed,
    governed_tool repr gateway action (Some c) on_deny func environ uuid4
      args kwargs w
    = try_except_PolicyDenied (PyFunc.call func args passed)
        (λ e, wrapper_denied on_deny e args passed) w1
    ∧ PolicyDecision.allowed decision = true
    ∧ ("meshguard_decision" ∈ PyFunc.co_varnames func →
       passed !! "meshguard_decision" = Some (KwDecision decision)
       ∧ ∀ key, key ≠ "meshguard_decision" → passed !! key = kwargs !! key)
    ∧ ("meshguard_decision" ∉ PyFunc.co_varnames func → passed = kwargs).
Proof.
  intros He w1.
  assert (PolicyDecision.allowed decision = true) as Hallowed.
  { revert He. rewrite enforce_eq. simpl.
    destruct (fst (check repr gateway c action None w)) as [d|e]; simpl;
      [|done].
    destruct (PolicyDecision.allowed d) eqn:Hd; [|done]. by intros [= <-]. }
  pose proof (enforce_world repr gateway c action None w) as Hw.
  unfold governed_tool.
  destruct (enforce repr gateway c action None w) as [[d|e'] w'];
    simpl in *; simplify_eq. fold w1.
  eexists. split; [reflexivity|]. split; [done|]. split.
  - intros Hin. rewrite bool_decide_eq_true_2; [|done].
    split; [apply lookup_insert_eq|].
    intros key Hkey. by rewrite lookup_insert_ne.
  - intros Hnotin. by rewrite bool_decide_eq_false_2.
Qed.

(** X25.  A decorated function that was given no client builds one at each
    call, from the environment: its policy query carries the identifier
    generated for that call as correlation id, the action, and the bearer
    credential of the environment when that has a non-empty one. *)
Theorem governed_tool_default_client (action : string)
    (on_deny : option (PolicyDeniedError.t → Args
                       → gmap string (kwarg Obj) → M U R))
    (func : PyFunc.t U Args Obj R)
    (environ : gmap string string) (uuid4 : string)
    (args : Args) (kwargs : gmap string (kwarg Obj)) (w : World U) :
  let c := MeshGuardClient_init environ uuid4 None None None None in
  governed_tool repr gateway action None on_deny func environ uuid4
    args kwargs w
  = governed_tool repr gateway action (Some c) on_deny func environ uuid4
      args kwargs w
  ∧ headers (check_request c action None) !! "X-MeshGuard-Trace-ID"
    = Some uuid4
  ∧ headers (check_request c action None) !! "X-MeshGuard-Action"
    = Some action
  ∧ headers (check_request c action None) !! "Authorization"
    = match environ !! "MESHGUARD_AGENT_TOKEN" with
      | Some token =>
          if String.eqb token "" then None else Some ("Bearer " +:+ token)
      | None => None
      end.
Proof.
  intros c. split; [done|].
  unfold check_request, _headers, c. simpl.
  unfold opt_or, or_default. simpl.
  destruct (environ !! "MESHGUARD_AGENT_TOKEN") as [token|]; simpl;
    [destruct (String.eqb token "")|]; simpl; split_and!; by simplify_map_eq.
Qed.

End Coverage.

(** ** The further properties at concrete inputs *)

Lemma init_argument_beats_environment_witness :
  agent_token (MeshGuardClient_init env_tokens "u" None (Some "explicit")
                 None None) = Some "explicit"
  ∧ agent_token (MeshGuardClient_init env_tokens "u" None (Some "") None None)
    = Some "env-agent-token".
Proof.
  split.
  - destruct (init_argument_beats_environment env_tokens "u" None
                (Some "explicit") None None) as (Harg & _).
    by apply (Harg "explicit").
  - destruct (init_argument_beats_environment env_tokens "u" None
                (Some "") None None) as (_ & Henv & _).
    rewrite Henv; [reflexivity | by right].
Defined.

Lemma trace_id_never_empty_witness :
  "6f1c1f0e-8d2b-4c57-9a3e-2b7f5d0c4e11" ≠ "" ∧ trace_id test_client ≠ "".
Proof.
  split; [discriminate|].
  apply (trace_id_never_empty ∅ "6f1c1f0e-8d2b-4c57-9a3e-2b7f5d0c4e11"
           (Some "https://test.meshguard.app") (Some "test-agent-token-12345")
           None None).
  discriminate.
Defined.

Lemma request_merges_headers_witness :
  let given : gmap string string :=
    {[ "X-Custom-Header" := "custom-value"; "Authorization" := "Basic other" ]} in
  ∃ req,
    sent (snd (request no_repr (always default_200) test_client "GET"
                 "/api/data" "read:test" (Some given) [] start)) = [req]
    ∧ headers req !! "X-Custom-Header" = Some "custom-value"
    ∧ headers req !! "Authorization" = Some "Bearer test-agent-token-12345".
Proof.
  intros given.
  destruct (request_merges_headers no_repr (always default_200) test_client
              "GET" "/api/data" "read:test" (Some given) [] start)
    as (req & Hsent & _ & _ & Hauth & Hother).
  exists req. split_and!.
  - exact Hsent.
  - rewrite Hother; reflexivity.
  - apply (Hauth "test-agent-token-12345"); [reflexivity | discriminate].
Defined.



Lemma request_denied_witness :
  ∃ failure,
    fst (request no_repr (always strict_403) test_client "DELETE" "/db"
           "delete:database" None [] start) = Raise (PolicyDenied failure)
    ∧ PolicyDeniedError.action failure = VStr "unknown"
    ∧ PolicyDeniedError.policy failure = VStr "strict"
    ∧ PolicyDeniedError.rule failure = VStr "no-delete".
Proof.
  apply (request_denied no_repr (always strict_403) test_client "DELETE" "/db"
           "delete:database" None [] start strict_403
           [("policy", VStr "strict"); ("rule", VStr "no-delete");
            ("message", VStr "Delete operations not allowed")]);
    reflexivity.
Defined.


Lemma is_healthy_total_witness :
  is_healthy (always healthy_200) test_client start
  = (Ok true, after_send (health_request test_client) start).
Proof.
  destruct (is_healthy_total (always healthy_200) test_client start)
    as (b & Heq & Hiff).
  assert (b = true) as ->; [|exact Heq].
  apply Hiff. by eexists healthy_200, _.
Defined.

Lemma check_decision_invariant_witness :
  ∃ d,
    fst (check no_repr (always strict_403) test_client "delete:database"
           None start) = Ok d
    ∧ PolicyDecision.action d = "delete:database"
    ∧ PolicyDecision.trace_id d = Some (trace_id test_client)
    ∧ PolicyDecision.allowed d = false
    ∧ PolicyDecision.decision d = "deny".
Proof.
  eexists. split; [reflexivity|].
  edestruct (check_decision_invariant no_repr (always strict_403) test_client
               "delete:database" None start) as (Ha & Ht & Hv);
    [reflexivity|].
  split_and!; [exact Ha | exact Ht | reflexivity | reflexivity].
Defined.

Lemma check_allows_below_400_witness :
  fst (check no_repr (always default_200) test_client "read:contacts"
         None start)
  = Ok (PolicyDecision.Build true "read:contacts" "allow" (VStr "default")
          VNone VNone (Some (trace_id test_client)))
  ∧ fst (check no_repr (always no_content_204) test_client "read:contacts"
           None start)
    = Ok (PolicyDecision.Build true "read:contacts" "allow" VNone
            VNone VNone (Some (trace_id test_client))).
Proof.
  split.
  - destruct (check_allows_below_400 no_repr (always default_200) test_client
                "read:contacts" None start default_200) as (Hok & _);
      [reflexivity | simpl; lia |].
    apply (Hok [("policy", VStr "default")]). reflexivity.
  - destruct (check_allows_below_400 no_repr (always no_content_204)
                test_client "read:contacts" None start no_content_204)
      as (Hok & _); [reflexivity | simpl; lia |].
    apply (Hok []). reflexivity.
Defined.

Lemma enforce_results_witness :
  ∃ failure,
    fst (enforce no_repr (always strict_403) test_client "delete:database"
           None start) = Raise (PolicyDenied failure)
    ∧ PolicyDeniedError.action failure = VStr "delete:database".
Proof.
  eexists. split; [reflexivity|].
  destruct (enforce_results no_repr (always strict_403) test_client
              "delete:database" None start) as (_ & Hdeny).
  eapply Hdeny. reflexivity.
Defined.

Lemma admin_operations_propagate_errors_witness :
  fst (list_agents no_repr (always unauthorized_401) admin_client start)
  = Raise (AuthenticationError "Invalid or expired token")
  ∧ fst (revoke_agent no_repr (always unauthorized_401) admin_client
           "agent-123" start)
    = Raise (AuthenticationError "Invalid or expired token").
Proof.
  destruct (admin_operations_propagate_errors no_repr
              (always unauthorized_401) admin_client "new-agent" "verified"
              "agent-123" None 50 None start unauthorized_401
              (AuthenticationError "Invalid or expired token"))
    as (Hlist & _ & Hrevoke & _); [reflexivity | reflexivity | reflexivity |].
  by split.
Defined.

Lemma admin_operations_on_empty_reply_witness :
  fst (list_agents no_repr (always no_content_204) admin_client start) = Ok []
  ∧ fst (revoke_agent no_repr (always no_content_204) admin_client
           "agent-123" start) = Ok ()
  ∧ fst (get_audit_log no_repr (always no_content_204) admin_client 50
           (Some "deny") start) = Ok (VList []).
Proof.
  destruct (admin_operations_on_empty_reply no_repr (always no_content_204)
              admin_client "new-agent" "verified" "agent-123" None 50
              (Some "deny") start no_content_204)
    as (Hlist & _ & Hrevoke & _ & Haudit);
    [reflexivity | reflexivity | simpl; lia | reflexivity |].
  by split_and!.
Defined.

Lemma list_agents_mirrors_reply_witness :
  fst (list_agents no_repr (always agents_200) admin_client start)
  = Ok [Agent.Build (VStr "agent-1") (VStr "alpha") (VStr "verified")
          (VList [VStr "prod"]) VNone;
        Agent.Build (VStr "agent-2") (VStr "beta") (VStr "trusted")
          (VList []) (VStr "org-456")].
Proof.
  eapply (list_agents_mirrors_reply no_repr (always agents_200) admin_client
            start agents_200);
    [reflexivity | reflexivity | simpl; lia | reflexivity | reflexivity |].
  repeat constructor; eexists; split_and!; reflexivity.
Defined.

Lemma denial_message_format_witness :
  let e :=
    PolicyDeniedError_init no_repr (VStr "delete:database") (VStr "strict")
      VNone VNone in
  contains " by policy 'strict'" (PolicyDeniedError.message e)
  ∧ PolicyDeniedError.message
      (PolicyDeniedError_init no_repr (VStr "read:contacts") VNone VNone VNone)
    = "Action 'read:contacts' denied: Access denied by policy".
Proof.
  split.
  - destruct (denial_message_format no_repr (VStr "delete:database")
                (VStr "strict") VNone VNone) as (_ & _ & Hpolicy & _).
    apply Hpolicy. reflexivity.
  - destruct (denial_message_format no_repr (VStr "read:contacts")
                VNone VNone VNone) as (_ & _ & _ & _ & Hplain).
    apply Hplain; reflexivity.
Defined.

Lemma toolkit_get_tools_witness :
  ∃ governed,
    get_tools ∅ "unused" example_toolkit !! 1 = Some governed
    ∧ GovernedTool.tool governed = calculator_tool
    ∧ GovernedTool.client governed = test_client
    ∧ GovernedTool.name governed = "Calculator"
    ∧ GovernedTool.action governed = "execute:tool".
Proof.
  destruct (toolkit_get_tools ∅ "unused" example_toolkit) as (_ & Hith).
  destruct (Hith 1 calculator_tool eq_refl)
    as (governed & Hlookup & Htool & Hclient & _ & Haction & _).
  exists governed. split_and!; [exact Hlookup | exact Htool | exact Hclient | |].
  - injection Hlookup as <-. reflexivity.
  - rewrite Haction. reflexivity.
Defined.

Lemma toolkit_defaults_witness :
  Forall (λ governed : GovernedTool.t nat string string,
            GovernedTool.action governed = "execute:tool"
            ∧ GovernedTool.client governed
              = MeshGuardClient_init env_tokens "toolkit-uuid" None None
                  None None)
         (get_tools env_tokens "other-uuid"
            (GovernedToolkit_init env_tokens "toolkit-uuid"
               [search_tool; calculator_tool] None None "execute:tool" None)).
Proof.
  destruct (toolkit_defaults env_tokens "toolkit-uuid" "other-uuid"
              [search_tool; calculator_tool] None None "execute:tool" None)
    as (Haction & Hclient).
  specialize (Haction (or_introl eq_refl)). specialize (Hclient eq_refl).
  apply Forall_forall. intros governed Hin. split.
  - by apply (proj1 (Forall_forall _ _) Haction).
  - by apply (proj1 (Forall_forall _ _) Hclient).
Defined.

Lemma governed_tool_denied_skips_function_witness :
  let on_deny : PolicyDeniedError.t → string → gmap string (kwarg unit)
                → M nat string := λ _ _ _, mret "Denied" in
  governed_tool no_repr (always empty_403) "write:email" (Some test_client)
    (Some on_deny) audited_function ∅ "unused" "draft" ∅ start
  = (Ok "Denied", after_send (check_request test_client "write:email" None)
                    start).
Proof.
  intros on_deny.
  edestruct (governed_tool_denied_skips_function no_repr (always empty_403)
               "write:email" test_client (Some on_deny) audited_function
               audited_function ∅ "unused" "draft" ∅ start)
    as (Hdenied & _); [reflexivity|].
  exact Hdenied.
Defined.

Lemma governed_tool_injects_decision_witness :
  fst (governed_tool no_repr (always default_200) "read:contacts"
         (Some test_client) None audited_function ∅ "unused" "john" ∅ start)
  = Ok "john as allow".
Proof.
  edestruct (governed_tool_injects_decision no_repr (always default_200)
               "read:contacts" test_client None audited_function ∅ "unused"
               "john" (∅ : gmap string (kwarg unit)) start)
    as (passed & Hcall & _ & Hin & _); [reflexivity|].
  rewrite Hcall.
  destruct Hin as (Hdecision & _); [by apply list_elem_of_In; right; left|].
  unfold try_except_PolicyDenied, audited_function. simpl.
  unfold mbind, M_bind, mret, M_ret, touch. simpl. by rewrite Hdecision.
Defined.

Lemma admin_requests_carry_admin_token_witness :
  ∃ req,
    sent (snd (list_policies no_repr (always default_200) admin_client start))
    = [req]
    ∧ headers req !! "X-Admin-Token" = Some "test-admin-token-67890"
    ∧ headers req !! "X-MeshGuard-Trace-ID" = Some "custom-trace-123"
    ∧ headers req !! "Authorization" = None.
Proof.
  destruct (admin_requests_carry_admin_token no_repr (always default_200)
              admin_client "new-agent" "verified" "agent-123" None 50 None
              start eq_refl)
    as (_ & _ & _ & Hpolicies & _).
  exact Hpolicies.
Defined.
